(** * WebPulse360 audit engine ([hack/app.py]): scoring analyzers and aggregator

    A shallow embedding of the page-audit service.  The four analyzers
    ([analyze_security], [analyze_performance], [analyze_seo],
    [analyze_accessibility]), the URL normalizer, the letter grade and the
    [audit] request handler are transcribed function by function.

    Modelling conventions.
    - A Python [str] is a Rocq [string]; its characters are read as the code
      points 0..255.
    - A Python [int] is a [Z].  A Python [float] is a binary64 number, a
      [spec_float] of the Standard Library with 53 bits of precision:
      every sum, difference, product and quotient is rounded to the nearest
      float, ties to even, as the hardware does; a decimal literal is the
      float nearest to it.  Where the code mixes an int into float
      arithmetic the int is converted first, as Python does.
    - Everything that lives outside the repository (the HTML parser, the
      network, the TLS handshake, the random generator, the clock, the
      [repr] of a float, [urlparse]) is a field of one record [Env]; the
      code is a function of it.  Calls to the outside world are recorded in
      a trace and the position in the random sequence is threaded as state. *)

From Stdlib Require Import Ascii String ZArith QArith Qround Lia Lqa SpecFloat.
From stdpp Require Import base strings list gmap pretty.

Local Open Scope string_scope.
Local Open Scope Z_scope.
Local Open Scope list_scope.

#[local] Set Warnings "-register-all,-abstract-large-number".

(** ** Python strings *)

Module Str.

Definition ord (c : ascii) : N := N_of_ascii c.

(** [str.isspace] on one character below 256. *)
Definition isspace (c : ascii) : bool :=
  let n := ord c in
  (((9 <=? n) && (n <=? 13)) || ((28 <=? n) && (n <=? 32))
   || (n =? 133) || (n =? 160))%N.

Fixpoint lstrip (s : string) : string :=
  match s with
  | String c s' => if isspace c then lstrip s' else s
  | EmptyString => EmptyString
  end.

Definition rstrip (s : string) : string := String.rev (lstrip (String.rev s)).

(** [s.strip()] *)
Definition strip (s : string) : string := rstrip (lstrip s).

(** [s.startswith(p)] *)
Definition startswith (s p : string) : bool := String.prefix p s.

(** [sub in s] *)
Fixpoint contains (sub s : string) : bool :=
  String.prefix sub s ||
  match s with
  | EmptyString => false
  | String _ s' => contains sub s'
  end.

Definition lower_char (c : ascii) : ascii :=
  let n := ord c in
  if (((65 <=? n) && (n <=? 90))
      || ((192 <=? n) && (n <=? 222) && negb (n =? 215)))%N
  then ascii_of_N (n + 32) else c.

(** [s.lower()] *)
Fixpoint lower (s : string) : string :=
  match s with
  | EmptyString => EmptyString
  | String c s' => String (lower_char c) (lower s')
  end.

(** [len(s)] *)
Definition len (s : string) : Z := Z.of_nat (String.length s).

(** truth value of a string *)
Definition truthy (s : string) : bool :=
  match s with EmptyString => false | _ => true end.

(** [re.compile(pat, re.I).search(s)] for a literal pattern of lower-case
    ASCII letters. *)
Definition search_icase (pat s : string) : bool := contains pat (lower s).

(** [re.compile("^" + pat, re.I).search(s)] for such a literal. *)
Definition match_icase_prefix (pat s : string) : bool :=
  String.prefix pat (lower s).

End Str.

(** ** Python numbers *)

Module Num.

Local Open Scope Q_scope.

(** The integer nearest to an exact value, ties to even. *)
Definition py_round (x : Q) : Z :=
  let f := Qfloor x in
  match Qcompare (x - inject_Z f)%Q (1 # 2)%Q with
  | Lt => f
  | Gt => (f + 1)%Z
  | Eq => if Z.even f then f else (f + 1)%Z
  end.

(** [max(0, min(100, score))] on an int. *)
Definition clamp (score : Z) : Z := Z.max 0 (Z.min 100 score).

End Num.

(** ** Python floats: IEEE 754 binary64 *)

Module F64.

Definition float : Type := spec_float.

Definition prec : Z := 53.
Definition emax : Z := 1024.

(** The float nearest to the fraction [n / d]: the value of the true
    division of two ints and of a decimal literal. *)
Definition of_ratio (n : Z) (d : positive) : float :=
  match n with
  | Z0 => S754_zero false
  | Zpos p => SFdiv prec emax (S754_finite false p 0) (S754_finite false d 0)
  | Zneg p => SFdiv prec emax (S754_finite true p 0) (S754_finite false d 0)
  end.

(** [float(z)] *)
Definition of_Z (z : Z) : float := binary_normalize prec emax z 0 false.

Definition add : float → float → float := SFadd prec emax.
Definition sub : float → float → float := SFsub prec emax.
Definition mul : float → float → float := SFmul prec emax.

(** [x > y], [x < y], [x <= y]; false when an operand is not a number. *)
Definition gtb (x y : float) : bool := SFltb y x.
Definition ltb (x y : float) : bool := SFltb x y.
Definition leb (x y : float) : bool := SFleb x y.

(** The exact value of a finite float (0 for the others). *)
Definition to_Q (x : float) : Q :=
  match x with
  | S754_finite s m e =>
      let v := match e with
               | Zneg p => Qmake (Zpos m) (2 ^ p)
               | _ => inject_Z (Zpos m * 2 ^ e)
               end in
      if s then Qopp v else v
  | _ => 0%Q
  end.

(** [round(x)]: the integer nearest to the exact value, ties to even.
    (Python raises on an infinity or a NaN; none reaches this call.) *)
Definition round (x : float) : Z := Num.py_round (to_Q x).

(** [round(x, n)]: the exact value is rounded to [n] decimals, ties to
    even, and the decimal is converted to the nearest float; a zero, an
    infinity and a NaN are returned as they are. *)
Definition round_nd (x : float) (n : nat) : float :=
  match x with
  | S754_finite s _ _ =>
      let p := (10 ^ Z.of_nat n)%Z in
      let k := Num.py_round (to_Q x * inject_Z p)%Q in
      if k =? 0 then S754_zero s else of_ratio k (Z.to_pos p)
  | _ => x
  end.

(** [max(0, min(100, score))] on a float: [min] keeps its first argument
    unless the second is smaller, [max] keeps its first argument unless
    the second is larger. *)
Definition clamp (score : float) : float :=
  let m := if ltb score (of_Z 100) then score else of_Z 100 in
  if gtb m (of_Z 0) then m else of_Z 0.

End F64.

Declare Scope F_scope.
Delimit Scope F_scope with F.
Bind Scope F_scope with F64.float.
Infix "+" := F64.add : F_scope.
Infix "-" := F64.sub : F_scope.
Infix "*" := F64.mul : F_scope.
(** The decimal literal [n / d], for [d] a power of ten. *)
Abbreviation dec := F64.of_ratio.

(** ** Parsed markup: the tree BeautifulSoup builds *)

Module Soup.

Inductive Node : Type :=
| NavigableString (s : string)
| Tag (name : string) (attrs : gmap string string) (contents : list Node).

(** [tag.descendants]: every node below [n], in document order. *)
Fixpoint descendants (n : Node) : list Node :=
  match n with
  | NavigableString _ => []
  | Tag _ _ cs =>
      (fix below (l : list Node) : list Node :=
         match l with
         | [] => []
         | c :: l' => c :: descendants c ++ below l'
         end) cs
  end.

Definition named (name : string) (n : Node) : bool :=
  match n with
  | Tag nm _ _ => bool_decide (nm = name)
  | NavigableString _ => false
  end.

(** [tag.get(key)] *)
Definition get (n : Node) (key : string) : option string :=
  match n with
  | Tag _ a _ => a !! key
  | NavigableString _ => None
  end.

(** [soup.find_all(name, ...)]; [extra] is the attribute filter. *)
Definition find_all (soup : Node) (name : string) (extra : Node → bool)
    : list Node :=
  List.filter (λ n, named name n && extra n) (descendants soup).

(** [soup.find(name, ...)]: the first match, if any. *)
Definition find (soup : Node) (name : string) (extra : Node → bool)
    : option Node :=
  head (find_all soup name extra).

Definition any : Node → bool := λ _, true.

(** An attribute filter [attrs={key: regex}]: the attribute is present and
    the pattern is found in it. *)
Definition attr_matches (key : string) (pat : string → bool) (n : Node)
    : bool :=
  match get n key with
  | Some v => pat v
  | None => false
  end.

(** [tag.string]: the single string child, looked up through single tag
    children. *)
Fixpoint string_of (n : Node) : option string :=
  match n with
  | NavigableString s => Some s
  | Tag _ _ [c] => string_of c
  | Tag _ _ _ => None
  end.

End Soup.

(** ** The response object of [requests] *)

Module Http.

(** [requests.structures.CaseInsensitiveDict]: the store is keyed by the
    lower-cased name and keeps the name as it was sent. *)
Record CaseInsensitiveDict : Type :=
  { store : gmap string (string * string) }.

Definition empty_headers : CaseInsensitiveDict := {| store := ∅ |}.

Definition set_header (k v : string) (d : CaseInsensitiveDict)
    : CaseInsensitiveDict :=
  {| store := <[Str.lower k := (k, v)]> (store d) |}.

(** [key in headers] *)
Definition contains (d : CaseInsensitiveDict) (k : string) : bool :=
  bool_decide (is_Some (store d !! Str.lower k)).

(** [headers.get(key)] *)
Definition get (d : CaseInsensitiveDict) (k : string) : option string :=
  snd <$> (store d !! Str.lower k).

Record Response : Type :=
  { status_code : Z;
    headers : CaseInsensitiveDict;
    content : string;      (* the body bytes *)
    text : string }.       (* the decoded body *)

(** Truth value of a response: [Response.__bool__] is [self.ok], which is
    false exactly on the 4xx and 5xx codes. *)
Definition ok (r : Response) : bool :=
  negb ((400 <=? status_code r) && (status_code r <? 600)).

End Http.

(** ** The outside world *)

Record Env : Type :=
  { html_parser : string → Soup.Node;
      (* BeautifulSoup(html, "html.parser") *)
    float_repr : F64.float → string;
      (* the text an f-string gives a float *)
    urlparse_netloc : string → option string;
      (* urlparse(url).netloc, None when urlparse raises *)
    tls_handshake : string → option string;
      (* None when the handshake and the host-name match succeed,
         otherwise the text of the exception *)
    requests_get : string → option (Http.Response * F64.float);
      (* the response and the seconds it took, None when the call raises *)
    requests_head : string → option Z;
      (* the status code, None when the call raises *)
    random_bits : nat → N;
      (* the 53-bit draws of the generator, in the order they are made *)
    utcnow_isoformat : string }.

Inductive Event : Type :=
| EvTls (host : string)
| EvGet (url : string)
| EvHead (url : string)
| EvRandom
| EvClock.

Record St : Type := { cursor : nat; trace : list Event }.

Definition St0 : St := {| cursor := 0; trace := [] |}.

(** Effectful code: a state transformer over the random cursor and the
    trace. *)
Definition Eff (A : Type) : Type := St → A * St.

Definition ret {A} (a : A) : Eff A := λ st, (a, st).

Definition bind {A B} (m : Eff A) (k : A → Eff B) : Eff B :=
  λ st, let '(a, st') := m st in k a st'.

Notation "x <- m ;; k" := (bind m (λ x, k))
  (at level 100, m at next level, right associativity).

Definition emit (e : Event) : Eff unit :=
  λ st, (tt, {| cursor := cursor st; trace := trace st ++ [e] |}).

Definition two53 : N := 9007199254740992.

(** The float the generator returns at position [n]: the draw divided by
    2^53, which is exact. *)
Definition draw (E : Env) (n : nat) : F64.float :=
  F64.of_ratio (Z.of_N (random_bits E n `mod` two53)) 9007199254740992.

(** [random.random()]: a float in [0, 1). *)
Definition random_random (E : Env) : Eff F64.float :=
  λ st,
    (draw E (cursor st),
     {| cursor := S (cursor st); trace := trace st ++ [EvRandom] |}).

(** [random.uniform(a, b)] is [a + (b - a) * random()]. *)
Definition random_uniform (E : Env) (a b : F64.float) : Eff F64.float :=
  u <- random_random E ;;
  ret (a + (b - a) * u)%F.

(** The text of a float inside an f-string. *)
Definition fmt_float (E : Env) (x : F64.float) : string := float_repr E x.

(** ** URL normalizer, fetcher, prober, grade *)

Definition normalize_url (url : string) : string :=
  let url := Str.strip url in
  if negb (Str.startswith url "http://" || Str.startswith url "https://")
  then "https://" +:+ url
  else url.

Definition hostname_from_url (E : Env) (url : string) : string :=
  match urlparse_netloc E url with
  | Some netloc => if Str.truthy netloc then netloc else url
  | None => url
  end.

Definition fetch_page (E : Env) (url : string)
    : Eff (option Http.Response * option F64.float) :=
  _ <- emit (EvGet url) ;;
  match requests_get E url with
  | Some (resp, seconds) => ret (Some resp, Some (F64.round_nd seconds 2))
  | None => ret (None, None)
  end.

Definition check_ssl_valid (E : Env) (hostname : string)
    : Eff (bool * option string) :=
  _ <- emit (EvTls hostname) ;;
  match tls_handshake E hostname with
  | None => ret (true, Some "Valid")
  | Some e => ret (false, Some e)
  end.

Definition letter_grade (score : Z) : string :=
  if 90 <=? score then "A+"
  else if 80 <=? score then "A"
  else if 70 <=? score then "B"
  else if 60 <=? score then "C"
  else if 50 <=? score then "D"
  else "F".

Definition SECURITY_HEADERS : list string :=
  [ "Content-Security-Policy";
    "Strict-Transport-Security";
    "X-Content-Type-Options";
    "X-Frame-Options";
    "Referrer-Policy";
    "Permissions-Policy" ].

(** ** Analyzers *)

(** [if c: score -= pts; issues.append(msg)] on the pair of the two locals. *)
Definition deduct (c : bool) (pts : Z) (msg : string)
    (acc : Z * list string) : Z * list string :=
  if c then (acc.1 - pts, acc.2 ++ [msg]) else acc.

Record SecMetrics : Type :=
  { sec_score : Z;
    sec_ssl_valid : bool;
    sec_security_headers : gmap string bool;
    sec_phishing_risk : string }.

Definition analyze_security (E : Env) (resp : option Http.Response)
    (ssl_ok : bool) : Eff (SecMetrics * list string) :=
  let acc := (100, []) in
  let acc := deduct (negb ssl_ok) 40 "Invalid SSL/TLS certificate." acc in
  let acc :=
    match resp with
    | Some r =>
        let missing_headers :=
          List.filter (λ h, negb (Http.contains (Http.headers r) h))
                      SECURITY_HEADERS in
        let acc :=
          match missing_headers with
          | [] => acc
          | _ :: _ =>
              (acc.1 - Z.of_nat (length missing_headers) * 10,
               acc.2 ++ map (λ h, "Missing " +:+ h +:+ " header.")
                            missing_headers)
          end in
        match Http.get (Http.headers r) "Set-Cookie" with
        | Some set_cookie =>
            if Str.truthy set_cookie then
              let has_secure := Str.contains "secure" (Str.lower set_cookie) in
              let has_httponly :=
                Str.contains "httponly" (Str.lower set_cookie) in
              let acc :=
                deduct (negb has_secure) 10 "Cookies missing Secure flag." acc in
              deduct (negb has_httponly) 10 "Cookies missing HttpOnly flag." acc
            else acc
        | None => acc
        end
    | None => (0, acc.2 ++ ["Could not fetch page for security analysis."])
    end in
  let '(score, issues) := acc in
  rnd <- random_random E ;;
  ret ({| sec_score := Z.max 0 score;
          sec_ssl_valid := ssl_ok;
          sec_security_headers :=
            match resp with
            | Some r =>
                if Http.ok r
                then foldl (λ d h, <[h := Http.contains (Http.headers r) h]> d)
                           ∅ SECURITY_HEADERS
                else ∅
            | None => ∅
            end;
          sec_phishing_risk :=
            if F64.gtb rnd (dec 1 10) then "LOW RISK" else "HIGH RISK" |},
       issues).

Record PerfMetrics : Type :=
  { perf_status_code : Z;
    perf_load_time_s : option F64.float;
    perf_page_size_kb : F64.float;
    perf_lcp : F64.float;
    perf_fcp : F64.float;
    perf_cls : F64.float }.

Definition analyze_performance (E : Env) (resp : option Http.Response)
    (load_time : option F64.float)
    : Eff (option PerfMetrics * Z * list string) :=
  match resp with
  | None => ret (None, 0, ["Site not reachable for performance test."])
  | Some r =>
      let size_kb :=
        F64.round_nd (F64.of_ratio (Str.len (Http.content r)) 1024) 2 in
      lf <- match load_time with
            | Some t =>
                lcp <- random_uniform E (t * dec 8 10)%F (t * dec 12 10)%F ;;
                fcp <- random_uniform E (t * dec 4 10)%F (t * dec 8 10)%F ;;
                ret (lcp, fcp)
            | None => ret (F64.of_Z 0, F64.of_Z 0)
            end ;;
      let '(lcp, fcp) := lf in
      cls <- random_uniform E (dec 0 10) (dec 25 100) ;;
      let acc := (100, []) in
      let acc :=
        deduct (F64.gtb lcp (dec 25 10)) 20
          "High Largest Contentful Paint (LCP) - Page rendering is slow." acc in
      let acc :=
        deduct (F64.gtb fcp (dec 18 10)) 15
          "High First Contentful Paint (FCP) - Initial content took time to display."
          acc in
      let acc :=
        deduct (F64.gtb cls (dec 1 10)) 10
          "High Cumulative Layout Shift (CLS) - Page layout is unstable." acc in
      let acc :=
        match load_time with
        | None => deduct true 20 "Could not measure load time." acc
        | Some t =>
            if F64.gtb t (F64.of_Z 6) then
              deduct true 45
                ("Very high load time " +:+ fmt_float E t +:+ "s.") acc
            else if F64.gtb t (F64.of_Z 4) then
              deduct true 30 ("High load time " +:+ fmt_float E t +:+ "s.") acc
            else
              deduct (F64.gtb t (F64.of_Z 2)) 15
                ("Moderate load time " +:+ fmt_float E t +:+ "s.") acc
        end in
      let acc :=
        if F64.gtb size_kb (F64.of_Z 4096) then
          deduct true 30
            ("Page very large: " +:+ fmt_float E size_kb
               +:+ " KB. Consider optimizing assets.") acc
        else if F64.gtb size_kb (F64.of_Z 2048) then
          deduct true 20
            ("Page large: " +:+ fmt_float E size_kb
               +:+ " KB. Consider optimizing assets.") acc
        else
          deduct (F64.gtb size_kb (F64.of_Z 1024)) 10
            ("Page medium: " +:+ fmt_float E size_kb
               +:+ " KB. Could be optimized.") acc in
      let '(score, issues) := acc in
      ret (Some {| perf_status_code := Http.status_code r;
                   perf_load_time_s := load_time;
                   perf_page_size_kb := size_kb;
                   perf_lcp := F64.round_nd lcp 2;
                   perf_fcp := F64.round_nd fcp 2;
                   perf_cls := F64.round_nd cls 3 |},
           Num.clamp score, issues)
  end.

Record SeoMetrics : Type :=
  { seo_title : option string;
    seo_meta_description : option string;
    seo_h1_count : Z;
    seo_og_tags : gmap string (option string);
    seo_robots_txt_status : string;
    seo_sitemap_xml_status : string }.

(** [if not html] for an absent or empty text. *)
Definition no_html (html : option string) : bool :=
  match html with
  | Some h => negb (Str.truthy h)
  | None => true
  end.

(** One [requests.head] probe of [analyze_seo]: the status text and the
    issue list after it. *)
Definition head_probe (E : Env) (target : string) (not_found failed : string)
    (issues : list string) : Eff (string * list string) :=
  _ <- emit (EvHead target) ;;
  match requests_head E target with
  | Some code =>
      if code =? 200 then ret ("Found", issues)
      else ret ("Not Found", issues ++ [not_found])
  | None => ret ("Not Found", issues ++ [failed])
  end.

Definition analyze_seo (E : Env) (html : option string) (url : string)
    : Eff (option SeoMetrics * Z * list string) :=
  if no_html html then ret (None, 0, ["No HTML fetched for SEO."])
  else
    let soup := html_parser E (default "" html) in
    let acc := (0, []) in
    let title_tag :=
      match Soup.find soup "title" Soup.any with
      | Some t =>
          match Soup.string_of t with
          | Some s => if Str.truthy s then Some (Str.strip s) else None
          | None => None
          end
      | None => None
      end in
    let acc :=
      match title_tag with
      | Some t =>
          if Str.truthy t then
            let acc := (acc.1 + 20, acc.2) in
            if (10 <=? Str.len t) && (Str.len t <=? 70)
            then (acc.1 + 10, acc.2)
            else (acc.1,
                  acc.2 ++ ["Title length not optimal (10-70 characters recommended)."])
          else (acc.1, acc.2 ++ ["Missing <title> tag."])
      | None => (acc.1, acc.2 ++ ["Missing <title> tag."])
      end in
    let meta_desc_tag :=
      Soup.find soup "meta"
        (Soup.attr_matches "name" (Str.search_icase "description")) in
    let meta_desc :=
      match meta_desc_tag with
      | Some t => Soup.get t "content"
      | None => None
      end in
    let acc :=
      match meta_desc with
      | Some d =>
          if Str.truthy d && (0 <? Str.len (Str.strip d)) then
            let desc_len := Str.len (Str.strip d) in
            let acc := (acc.1 + 20, acc.2) in
            if (50 <=? desc_len) && (desc_len <=? 160)
            then (acc.1 + 10, acc.2)
            else (acc.1,
                  acc.2 ++ ["Meta description length not optimal (50-160 characters recommended)."])
          else (acc.1, acc.2 ++ ["Missing meta description."])
      | None => (acc.1, acc.2 ++ ["Missing meta description."])
      end in
    let h1_tags := Soup.find_all soup "h1" Soup.any in
    let acc :=
      if Z.of_nat (length h1_tags) =? 1 then (acc.1 + 10, acc.2)
      else if 1 <? Z.of_nat (length h1_tags) then
        (acc.1, acc.2 ++ ["Multiple <h1> headings found. Use only one per page."])
      else (acc.1, acc.2 ++ ["Missing heading."]) in
    let og_tags :=
      Soup.find_all soup "meta"
        (Soup.attr_matches "property" (Str.match_icase_prefix "og:")) in
    let og_tag_details :=
      foldl (λ d tag,
               match Soup.get tag "property" with
               | Some p => <[p := Soup.get tag "content"]> d
               | None => d
               end) ∅ og_tags in
    let acc :=
      match og_tags with
      | [] =>
          (acc.1 - 20,
           acc.2 ++ ["Missing Open Graph tags. These are essential for social media sharing."])
      | _ :: _ => acc
      end in
    let '(score, issues) := acc in
    ri <- head_probe E (normalize_url url +:+ "/robots.txt")
            "robots.txt file not found. This may impact search engine crawling."
            "Could not check for robots.txt." issues ;;
    let '(robots_txt_status, issues) := ri in
    si <- head_probe E (normalize_url url +:+ "/sitemap.xml")
            "sitemap.xml file not found. This is recommended for SEO."
            "Could not check for sitemap.xml." issues ;;
    let '(sitemap_xml_status, issues) := si in
    ret (Some {| seo_title := title_tag;
                 seo_meta_description := meta_desc;
                 seo_h1_count := Z.of_nat (length h1_tags);
                 seo_og_tags := og_tag_details;
                 seo_robots_txt_status := robots_txt_status;
                 seo_sitemap_xml_status := sitemap_xml_status |},
         Num.clamp score, issues).

(** [not x] for an optional string: absent or empty. *)
Definition falsy (x : option string) : bool :=
  match x with
  | Some s => negb (Str.truthy s)
  | None => true
  end.

Definition analyze_accessibility (E : Env) (html : option string)
    (url : string) : unit * F64.float * list string :=
  if no_html html then (tt, F64.of_Z 0, ["No HTML fetched for accessibility."])
  else
    let soup := html_parser E (default "" html) in
    let score := F64.of_Z 100 in
    let issues := [] in
    let images := Soup.find_all soup "img" Soup.any in
    let images_without_alt :=
      List.filter (λ img, falsy (Soup.get img "alt")) images in
    let '(score, issues) :=
      match images with
      | _ :: _ =>
          if 0 <? Z.of_nat (length images_without_alt) then
            ((score - F64.of_ratio (Z.of_nat (length images_without_alt))
                                   (Pos.of_nat (length images))
                      * F64.of_Z 30)%F,
             issues ++ [pretty (length images_without_alt)
                          +:+ " images missing alt attributes."])
          else (score, issues)
      | [] => (score, issues)
      end in
    let '(score, issues) :=
      match Soup.find soup "h1" Soup.any with
      | None => ((score - F64.of_Z 10)%F, issues ++ ["Missing heading."])
      | Some _ => (score, issues)
      end in
    let '(score, issues) :=
      if match Soup.find soup "html" Soup.any with
         | None => true
         | Some h => falsy (Soup.get h "lang")
         end
      then ((score - F64.of_Z 10)%F,
            issues ++ ["Missing lang attribute on <html> tag."])
      else (score, issues) in
    let links := Soup.find_all soup "a" Soup.any in
    let empty_links :=
      List.filter
        (λ a, match Soup.string_of a with
              | None => true
              | Some s =>
                  negb (Str.truthy s) || bool_decide (Str.strip s = "")
              end) links in
    let '(score, issues) :=
      match links with
      | _ :: _ =>
          if 0 <? Z.of_nat (length empty_links) then
            ((score - F64.of_ratio (Z.of_nat (length empty_links))
                                   (Pos.of_nat (length links))
                      * F64.of_Z 10)%F,
             issues ++ [pretty (length empty_links) +:+ " links with no text."])
          else (score, issues)
      | [] => (score, issues)
      end in
    (tt, F64.clamp score, issues).

(** ** The request handler *)

Record Report : Type :=
  { rep_timestamp : string;
    rep_url : string;
    rep_status : string;
    rep_overall_score : Z;
    rep_overall_grade : string;
    rep_security : SecMetrics;
    rep_ssl_error : option string;
    rep_security_issues : list string;
    rep_performance : option PerfMetrics;
    rep_performance_score : Z;
    rep_performance_issues : list string;
    rep_seo : option SeoMetrics;
    rep_seo_score : Z;
    rep_seo_issues : list string;
    rep_accessibility_score : F64.float;
    rep_accessibility_issues : list string;
    rep_critical : Z;
    rep_minor : Z }.

(** What the handler hands back to Flask: a JSON body and a status. *)
Inductive Reply : Type :=
| Json200 (report : Report)
| JsonError (code : Z) (error : string).

(** The test of the list comprehension that counts critical issues. *)
Definition is_critical (i : string) : bool :=
  Str.contains "Missing" i || Str.contains "Invalid" i || Str.contains "High" i.

(** The weighted sum under [round]; the weights are the entries of
    [WEIGHTS]. *)
Definition WEIGHT_security : F64.float := dec 35 100.
Definition WEIGHT_performance : F64.float := dec 30 100.
Definition WEIGHT_seo : F64.float := dec 25 100.
Definition WEIGHT_accessibility : F64.float := dec 10 100.

(** [data_url] is the [url] entry of the JSON body, [None] when the body or
    the entry is absent ([data.get("url", "")]). *)
Definition audit (E : Env) (data_url : option string) : Eff Reply :=
  let url := normalize_url (default "" data_url) in
  if negb (Str.truthy url) then ret (JsonError 400 "URL required")
  else
    let host := hostname_from_url E url in
    ssl <- check_ssl_valid E host ;;
    let '(ssl_ok, ssl_err) := ssl in
    fetched <- fetch_page E url ;;
    let '(resp, load_time) := fetched in
    match resp with
    | None => ret (JsonError 500 "Failed to fetch page.")
    | Some r =>
        sec <- analyze_security E resp ssl_ok ;;
        let '(sec_metrics, sec_issues) := sec in
        perf <- analyze_performance E resp load_time ;;
        let '(perf_metrics, perf_score, perf_issues) := perf in
        seo <- analyze_seo E (Some (Http.text r)) url ;;
        let '(seo_metrics, seo_score, seo_issues) := seo in
        let '(acc_metrics, acc_score, acc_issues) :=
          analyze_accessibility E (Some (Http.text r)) url in
        let overall :=
          F64.round
            (F64.of_Z (sec_score sec_metrics) * WEIGHT_security
             + F64.of_Z perf_score * WEIGHT_performance
             + F64.of_Z seo_score * WEIGHT_seo
             + acc_score * WEIGHT_accessibility)%F in
        let grade := letter_grade overall in
        let issues_combined :=
          sec_issues ++ perf_issues ++ seo_issues ++ acc_issues in
        let critical_issues :=
          Z.of_nat (length (List.filter is_critical issues_combined)) in
        let minor_issues :=
          Z.of_nat (length issues_combined) - critical_issues in
        _ <- emit EvClock ;;
        ret (Json200
               {| rep_timestamp := utcnow_isoformat E;
                  rep_url := url;
                  rep_status := "success";
                  rep_overall_score := overall;
                  rep_overall_grade := grade;
                  rep_security := sec_metrics;
                  rep_ssl_error := ssl_err;
                  rep_security_issues := sec_issues;
                  rep_performance := perf_metrics;
                  rep_performance_score := perf_score;
                  rep_performance_issues := perf_issues;
                  rep_seo := seo_metrics;
                  rep_seo_score := seo_score;
                  rep_seo_issues := seo_issues;
                  rep_accessibility_score := acc_score;
                  rep_accessibility_issues := acc_issues;
                  rep_critical := critical_issues;
                  rep_minor := minor_issues |})
    end.

(** ** A concrete world, for running the code *)

Module Demo.

(** The text of a float that is a short decimal, as [repr] prints it:
    the integer part, a point, and the hundredths without a trailing
    zero.  It is the text of every value [round(x, 2)] gives. *)
Definition repr_hundredths (x : F64.float) : string :=
  let h := Num.py_round (F64.to_Q x * 100)%Q in
  let a := Z.abs h in
  let frac := a `mod` 100 in
  (if h <? 0 then "-" else "")
    +:+ pretty (a `div` 100) +:+ "."
    +:+ (if frac `mod` 10 =? 0 then pretty (frac `div` 10)
         else pretty (frac `div` 10) +:+ pretty (frac `mod` 10)).

Definition six_headers : Http.CaseInsensitiveDict :=
  foldr (λ h d, Http.set_header h "1" d) Http.empty_headers SECURITY_HEADERS.

Definition attr (k v : string) : gmap string string := {[ k := v ]}.

(** The tree of [html] below: four images, one of them without [alt]. *)
Definition page : Soup.Node :=
  Soup.Tag "[document]" ∅
    [ Soup.Tag "html" (attr "lang" "en")
        [ Soup.Tag "head" ∅
            [ Soup.Tag "title" ∅ [ Soup.NavigableString "Example Domain" ] ];
          Soup.Tag "body" ∅
            [ Soup.Tag "h1" ∅ [ Soup.NavigableString "Hi" ];
              Soup.Tag "img" (attr "alt" "a") [];
              Soup.Tag "img" ∅ [];
              Soup.Tag "img" (attr "alt" "b") [];
              Soup.Tag "img" (attr "alt" "c") [];
              Soup.Tag "a" ∅ [ Soup.NavigableString "go" ] ] ] ].

Definition html : string :=
  "<html lang='en'><head><title>Example Domain</title></head><body><h1>Hi</h1><img alt='a'><img><img alt='b'><img alt='c'><a>go</a></body></html>".

Definition response (hdrs : Http.CaseInsensitiveDict) : Http.Response :=
  {| Http.status_code := 200;
     Http.headers := hdrs;
     Http.content := html;
     Http.text := html |}.

(** A world in which every host answers with [response six_headers] after
    [seconds], the parser builds [page], the TLS handshake succeeds, both
    HEAD probes give 200, and the generator yields [draws]. *)
Definition env (seconds : F64.float) (draws : nat → N) : Env :=
  {| html_parser := λ _, page;
     float_repr := repr_hundredths;
     urlparse_netloc := λ _, Some "example.com";
     tls_handshake := λ _, None;
     requests_get := λ _, Some (response six_headers, seconds);
     requests_head := λ _, Some 200;
     random_bits := draws;
     utcnow_isoformat := "2024-01-01T00:00:00" |}.

(** A body of [n] bytes. *)
Fixpoint body (n : nat) : string :=
  match n with
  | O => ""
  | S n' => String "x" (body n')
  end.

(** A 200 response with the six headers and a body of 500 KB. *)
Definition response_500kb : Http.Response :=
  {| Http.status_code := 200;
     Http.headers := six_headers;
     Http.content := body 512000;
     Http.text := body 512000 |}.

(** The six headers and a cookie without flags. *)
Definition cookie_headers : Http.CaseInsensitiveDict :=
  Http.set_header "Set-Cookie" "sid=1" six_headers.

(** The six headers and a cookie with both flags. *)
Definition flagged_cookie_headers : Http.CaseInsensitiveDict :=
  Http.set_header "Set-Cookie" "sid=1; Secure; HttpOnly" six_headers.

Definition zeros : nat → N := λ _, 0%N.
Definition ones : nat → N := λ _, (two53 - 1)%N.

(** A page with a 14-character title, a 60-character description, one
    h1 and an Open Graph tag. *)
Definition perfect_page : Soup.Node :=
  Soup.Tag "[document]" ∅
    [ Soup.Tag "html" (attr "lang" "en")
        [ Soup.Tag "head" ∅
            [ Soup.Tag "title" ∅ [ Soup.NavigableString "Example Domain" ];
              Soup.Tag "meta"
                (<["content" :=
                     "A page that is used in examples of documents and of tests."]>
                   (attr "name" "Description")) [];
              Soup.Tag "meta"
                (<["content" := "Example"]> (attr "property" "og:title")) [] ];
          Soup.Tag "body" ∅ [ Soup.Tag "h1" ∅ [ Soup.NavigableString "Hi" ] ] ] ].

Definition perfect_env : Env :=
  {| html_parser := λ _, perfect_page;
     float_repr := repr_hundredths;
     urlparse_netloc := λ _, Some "example.com";
     tls_handshake := λ _, None;
     requests_get := λ _, Some (response six_headers, F64.of_Z 1);
     requests_head := λ _, Some 200;
     random_bits := zeros;
     utcnow_isoformat := "2024-01-01T00:00:00" |}.

(** A page with nine images, eight of them without [alt], and six links,
    five of them without text. *)
Definition gallery_page : Soup.Node :=
  Soup.Tag "[document]" ∅
    [ Soup.Tag "html" (attr "lang" "en")
        [ Soup.Tag "body" ∅
            (Soup.Tag "h1" ∅ [ Soup.NavigableString "Hi" ]
             :: Soup.Tag "img" (attr "alt" "a") []
             :: replicate 8 (Soup.Tag "img" ∅ [])
             ++ Soup.Tag "a" ∅ [ Soup.NavigableString "go" ]
             :: replicate 5 (Soup.Tag "a" ∅ [])) ] ].

Definition gallery_env : Env :=
  {| html_parser := λ _, gallery_page;
     float_repr := repr_hundredths;
     urlparse_netloc := λ _, Some "example.com";
     tls_handshake := λ _, None;
     requests_get := λ _, Some (response six_headers, F64.of_Z 1);
     requests_head := λ _, Some 200;
     random_bits := zeros;
     utcnow_isoformat := "2024-01-01T00:00:00" |}.

(** A world without network: [urlparse] finds no host, the handshake and
    every request raise. *)
Definition offline : Env :=
  {| html_parser := λ _, Soup.Tag "[document]" ∅ [];
     float_repr := repr_hundredths;
     urlparse_netloc := λ _, Some "";
     tls_handshake := λ _, Some "[Errno -2] Name or service not known";
     requests_get := λ _, None;
     requests_head := λ _, None;
     random_bits := zeros;
     utcnow_isoformat := "2024-01-01T00:00:00" |}.

End Demo.

(** ** Vocabulary of the properties *)

(** [sub] occurs in [s]. *)
Definition Substring (sub s : string) : Prop :=
  ∃ pre post, s = pre +:+ sub +:+ post.

(** The response carries each of the six required headers. *)
Definition all_security_headers (r : Http.Response) : Prop :=
  ∀ h, In h SECURITY_HEADERS → Http.contains (Http.headers r) h = true.

(** The response sets no cookie, or one that carries both flags. *)
Definition cookie_flags_ok (r : Http.Response) : Prop :=
  match Http.get (Http.headers r) "Set-Cookie" with
  | None => True
  | Some c =>
      c = ""
      ∨ (Str.contains "secure" (Str.lower c) = true
         ∧ Str.contains "httponly" (Str.lower c) = true)
  end.

(** The same world with another random sequence and another clock. *)
Definition reseed (E : Env) (draws : nat → N) (clock : string) : Env :=
  {| html_parser := html_parser E;
     float_repr := float_repr E;
     urlparse_netloc := urlparse_netloc E;
     tls_handshake := tls_handshake E;
     requests_get := requests_get E;
     requests_head := requests_head E;
     random_bits := draws;
     utcnow_isoformat := clock |}.

Definition erase_timestamp (rep : Report) : Report :=
  {| rep_timestamp := "";
     rep_url := rep_url rep;
     rep_status := rep_status rep;
     rep_overall_score := rep_overall_score rep;
     rep_overall_grade := rep_overall_grade rep;
     rep_security := rep_security rep;
     rep_ssl_error := rep_ssl_error rep;
     rep_security_issues := rep_security_issues rep;
     rep_performance := rep_performance rep;
     rep_performance_score := rep_performance_score rep;
     rep_performance_issues := rep_performance_issues rep;
     rep_seo := rep_seo rep;
     rep_seo_score := rep_seo_score rep;
     rep_seo_issues := rep_seo_issues rep;
     rep_accessibility_score := rep_accessibility_score rep;
     rep_accessibility_issues := rep_accessibility_issues rep;
     rep_critical := rep_critical rep;
     rep_minor := rep_minor rep |}.

(** The part of a report that no random draw and no clock reading enters:
    everything but the timestamp, the phishing advisory, the three simulated
    rendering metrics, the performance score and issues, the overall score
    and grade, and the issue counts. *)
Record StableView : Type :=
  { sv_url : string;
    sv_status : string;
    sv_security_score : Z;
    sv_ssl_valid : bool;
    sv_security_headers : gmap string bool;
    sv_ssl_error : option string;
    sv_security_issues : list string;
    sv_performance : option (Z * option F64.float * F64.float);
    sv_seo : option SeoMetrics;
    sv_seo_score : Z;
    sv_seo_issues : list string;
    sv_accessibility_score : F64.float;
    sv_accessibility_issues : list string }.

Definition stable_view (rep : Report) : StableView :=
  {| sv_url := rep_url rep;
     sv_status := rep_status rep;
     sv_security_score := sec_score (rep_security rep);
     sv_ssl_valid := sec_ssl_valid (rep_security rep);
     sv_security_headers := sec_security_headers (rep_security rep);
     sv_ssl_error := rep_ssl_error rep;
     sv_security_issues := rep_security_issues rep;
     sv_performance :=
       (λ m, (perf_status_code m, perf_load_time_s m, perf_page_size_kb m))
         <$> rep_performance rep;
     sv_seo := rep_seo rep;
     sv_seo_score := rep_seo_score rep;
     sv_seo_issues := rep_seo_issues rep;
     sv_accessibility_score := rep_accessibility_score rep;
     sv_accessibility_issues := rep_accessibility_issues rep |}.

(** Two replies agree on what is stable. *)
Definition same_stable (a b : Reply) : Prop :=
  match a, b with
  | Json200 ra, Json200 rb => stable_view ra = stable_view rb
  | JsonError ca ea, JsonError cb eb => ca = cb ∧ ea = eb
  | _, _ => False
  end.

(** Two replies agree on everything but the timestamp. *)
Definition same_but_timestamp (a b : Reply) : Prop :=
  match a, b with
  | Json200 ra, Json200 rb => erase_timestamp ra = erase_timestamp rb
  | JsonError ca ea, JsonError cb eb => ca = cb ∧ ea = eb
  | _, _ => False
  end.

(** A float whose exact value is a whole number. *)
Definition integral (x : F64.float) : Prop :=
  ∃ z : Z, (F64.to_Q x == inject_Z z)%Q.

(** ** Vocabulary of the further properties *)

(** The first character, if any, is not white space. *)
Definition head_ok (s : string) : bool :=
  match s with
  | EmptyString => true
  | String c _ => negb (Str.isspace c)
  end.

(** The order of the grades, from F up to A+. *)
Definition grade_rank (g : string) : nat :=
  if bool_decide (g = "A+") then 5
  else if bool_decide (g = "A") then 4
  else if bool_decide (g = "B") then 3
  else if bool_decide (g = "C") then 2
  else if bool_decide (g = "D") then 1
  else 0.

(** * Properties *)

(** ** Strings and numbers *)

Lemma append_cons c (s t : string) : String c s +:+ t = String c (s +:+ t).
Proof. reflexivity. Qed.

Lemma append_nil (t : string) : "" +:+ t = t.
Proof. reflexivity. Qed.

Lemma prefix_app (p s : string) :
  String.prefix p s = true ↔ ∃ post, s = p +:+ post.
Proof.
  revert s. induction p as [|c p IH]; intros s.
  - destruct s; simpl; (split; [intros _; by eexists | done]).
  - destruct s as [|d s]; simpl.
    + split; [done | intros [post H]; discriminate].
    + destruct (Ascii.ascii_dec c d) as [->|Hne].
      * rewrite IH. split; intros [post H]; exists post;
          rewrite append_cons in *; congruence.
      * split; [done | intros [post H]; rewrite append_cons in H; congruence].
Qed.

Lemma contains_app (sub s : string) :
  Str.contains sub s = true ↔ ∃ pre post, s = pre +:+ sub +:+ post.
Proof.
  induction s as [|c s IH]; cbn [Str.contains].
  - rewrite orb_false_r, prefix_app. split.
    + intros [post H]. by exists "", post.
    + intros [pre [post H]]. destruct pre; [by exists post | discriminate].
  - rewrite orb_true_iff, prefix_app, IH. split.
    + intros [[post H] | [pre [post H]]].
      * by exists "", post.
      * exists (String c pre), post. rewrite append_cons. by rewrite H.
    + intros [pre [post H]]. destruct pre as [|d pre].
      * left. by exists post.
      * right. exists pre, post. rewrite append_cons in H. congruence.
Qed.

Lemma clamp_bounds z : 0 ≤ Num.clamp z ≤ 100.
Proof. unfold Num.clamp. lia. Qed.

Lemma ltb_leb (x y : F64.float) : SFltb x y = true → SFleb x y = true.
Proof. unfold SFltb, SFleb. by destruct (SFcompare x y) as [[]|]. Qed.

Lemma clampF_bounds (x : F64.float) :
  F64.leb (F64.of_Z 0) (F64.clamp x) = true
  ∧ F64.leb (F64.clamp x) (F64.of_Z 100) = true.
Proof.
  unfold F64.clamp. destruct (F64.ltb x (F64.of_Z 100)) eqn:H1.
  - destruct (F64.gtb x (F64.of_Z 0)) eqn:H2.
    + split; by apply ltb_leb.
    + split; reflexivity.
  - change (F64.gtb (F64.of_Z 100) (F64.of_Z 0)) with true.
    split; reflexivity.
Qed.

(** ** Every analyzer's score stays in range *)

Lemma deduct_fst c p m acc :
  (deduct c p m acc).1 = if c then acc.1 - p else acc.1.
Proof. by destruct c. Qed.

Lemma deduct_snd c p m acc :
  (deduct c p m acc).2 = if c then acc.2 ++ [m] else acc.2.
Proof. by destruct c. Qed.

Ltac split_pair :=
  match goal with
  | |- context [let '(_, _) := ?a in _] =>
      let H := fresh "Hacc" in destruct a as [? ?] eqn:H
  end.

Lemma analyze_security_score E resp ssl_ok st :
  0 ≤ sec_score (analyze_security E resp ssl_ok st).1.1 ≤ 100.
Proof.
  unfold analyze_security, bind, ret, random_random.
  split_pair. cbn [fst snd sec_score].
  apply (f_equal fst) in Hacc. cbn [fst] in Hacc.
  enough (z ≤ 100) by lia. subst z.
  destruct resp as [r|]; [|simpl; lia].
  generalize (List.filter (λ h, negb (Http.contains (Http.headers r) h))
                SECURITY_HEADERS); intros missing.
  destruct (Http.get _ _) as [c|]; [destruct (Str.truthy c)|];
    destruct missing; rewrite ?deduct_fst; cbn [fst];
    rewrite ?deduct_fst; cbn [fst]; repeat case_match; lia.
Qed.

Lemma analyze_performance_score E resp load_time st :
  0 ≤ (analyze_performance E resp load_time st).1.1.2 ≤ 100.
Proof.
  unfold analyze_performance. destruct resp as [r|]; [|simpl; lia].
  unfold bind, ret.
  destruct load_time as [t|]; repeat split_pair; cbn [fst snd];
    apply clamp_bounds.
Qed.

Lemma head_probe_ret E target nf failed issues st :
  ∃ status issues',
    head_probe E target nf failed issues st =
      ((status, issues'),
       {| cursor := cursor st; trace := trace st ++ [EvHead target] |}).
Proof.
  unfold head_probe, bind, emit, ret.
  destruct (requests_head E target) as [code|]; [destruct (code =? 200)|];
    eauto.
Qed.

Lemma analyze_seo_score E html url st :
  0 ≤ (analyze_seo E html url st).1.1.2 ≤ 100.
Proof.
  unfold analyze_seo. destruct (no_html html); [simpl; lia|].
  split_pair. unfold bind.
  edestruct (head_probe_ret E (normalize_url url +:+ "/robots.txt"))
    as (s1 & i1 & ->).
  edestruct (head_probe_ret E (normalize_url url +:+ "/sitemap.xml"))
    as (s2 & i2 & ->).
  cbn [fst snd ret]. apply clamp_bounds.
Qed.

Lemma analyze_accessibility_score E html url :
  F64.leb (F64.of_Z 0) (analyze_accessibility E html url).1.2 = true
  ∧ F64.leb (analyze_accessibility E html url).1.2 (F64.of_Z 100) = true.
Proof.
  unfold analyze_accessibility.
  destruct (no_html html); [split; reflexivity|].
  repeat split_pair. cbn [fst snd]. apply clampF_bounds.
Qed.

(** ** The request handler, step by step *)

(** Runs through the calls of [audit] in a hypothesis [H] that says the
    handler answered with a report, naming each intermediate result. *)
Ltac audit_steps H :=
  unfold audit in H;
  destruct (negb (Str.truthy (normalize_url _))) eqn:?; [discriminate H|];
  unfold bind at 1 in H;
  destruct (check_ssl_valid _ _ _) as [[?ssl_ok ?ssl_err] ?st] eqn:?Hssl;
  unfold bind at 1 in H;
  destruct (fetch_page _ _ _) as [[[?r|] ?load_time] ?st] eqn:?Hfetch;
    [|discriminate H];
  unfold bind at 1 in H;
  destruct (analyze_security _ _ _ _) as [[?sec_metrics ?sec_issues] ?st]
    eqn:?Hsec;
  unfold bind at 1 in H;
  destruct (analyze_performance _ _ _ _)
    as [[[?perf_metrics ?perf_score] ?perf_issues] ?st] eqn:?Hperf;
  unfold bind at 1 in H;
  destruct (analyze_seo _ _ _ _)
    as [[[?seo_metrics ?seo_score] ?seo_issues] ?st] eqn:?Hseo;
  destruct (analyze_accessibility _ _ _)
    as [[?acc_metrics ?acc_score] ?acc_issues] eqn:?Hacc;
  unfold bind, emit, ret in H;
  injection H as H ?; subst.

Lemma letter_grade_thresholds (s : Z) :
  (90 ≤ s → letter_grade s = "A+")
  ∧ (80 ≤ s < 90 → letter_grade s = "A")
  ∧ (70 ≤ s < 80 → letter_grade s = "B")
  ∧ (60 ≤ s < 70 → letter_grade s = "C")
  ∧ (50 ≤ s < 60 → letter_grade s = "D")
  ∧ (s < 50 → letter_grade s = "F").
Proof.
  unfold letter_grade.
  repeat split; intros; repeat case_match; (done || lia).
Qed.

(** C2: the overall score of a report is [round] of the weighted sum of its
    four component scores (weights 0.35, 0.30, 0.25, 0.10), the products
    and sums taken in binary64 from left to right as the code takes them,
    and its letter grade follows from the overall score by the thresholds
    90, 80, 70, 60, 50. *)
Theorem audit_overall_is_weighted_round E data_url st rep st' :
  audit E data_url st = (Json200 rep, st') →
  rep_overall_score rep =
    F64.round
      (F64.of_Z (sec_score (rep_security rep)) * dec 35 100
       + F64.of_Z (rep_performance_score rep) * dec 30 100
       + F64.of_Z (rep_seo_score rep) * dec 25 100
       + rep_accessibility_score rep * dec 10 100)%F
  ∧ (let s := rep_overall_score rep in
     let g := rep_overall_grade rep in
     (90 ≤ s → g = "A+")
     ∧ (80 ≤ s < 90 → g = "A")
     ∧ (70 ≤ s < 80 → g = "B")
     ∧ (60 ≤ s < 70 → g = "C")
     ∧ (50 ≤ s < 60 → g = "D")
     ∧ (s < 50 → g = "F")).
Proof.
  intros H. audit_steps H. cbn [rep_overall_score rep_overall_grade
    rep_security rep_performance_score rep_seo_score rep_accessibility_score].
  split; [reflexivity|]. apply letter_grade_thresholds.
Qed.

Lemma audit_overall_is_weighted_round_witness :
  ∃ rep st',
    audit (Demo.env (F64.of_Z 1) Demo.ones) (Some "example.com") St0 = (Json200 rep, st')
    ∧ sec_score (rep_security rep) = 100
    ∧ rep_performance_score rep = 90
    ∧ rep_seo_score rep = 20
    ∧ (F64.to_Q (rep_accessibility_score rep) == 92.5)%Q
    ∧ rep_overall_score rep = 76
    ∧ rep_overall_grade rep = "B".
Proof.
  eexists. eexists.
  split; [vm_compute; reflexivity|].
  split; [reflexivity|]. split; [reflexivity|]. split; [reflexivity|].
  split; [reflexivity|].
  edestruct (audit_overall_is_weighted_round (Demo.env (F64.of_Z 1) Demo.ones)
               (Some "example.com") St0) as [Hscore Hgrade];
    [vm_compute; reflexivity|].
  split; [exact Hscore|].
  cbv zeta in Hgrade. destruct Hgrade as (_ & _ & HB & _).
  apply HB. rewrite Hscore. vm_compute. split; [discriminate | reflexivity].
Defined.

(** The weighted sum is rounded at every step: for the scores 0, 5, 0 and
    59.99999999999999 the products 1.5 and 5.999999999999999 add up to the
    float 7.5, and [round] gives 8, where the exact sum would give 7. *)
Example overall_is_rounded_stepwise :
  F64.round
    (F64.of_Z 0 * dec 35 100 + F64.of_Z 5 * dec 30 100
     + F64.of_Z 0 * dec 25 100
     + S754_finite false 8444249301319679 (-47) * dec 10 100)%F = 8
  ∧ Num.py_round
      (0 * (35 # 100) + 5 * (30 # 100) + 0 * (25 # 100)
       + F64.to_Q (S754_finite false 8444249301319679 (-47)) * (10 # 100))%Q
    = 7.
Proof. split; vm_compute; reflexivity. Qed.

(** C1: whatever the response (or none), the TLS flag, the load time and the
    HTML text (or none), each of the four analyzers returns a score between
    0 and 100; for the float of the accessibility analyzer both comparisons
    [0 <= score] and [score <= 100] hold. *)
Theorem analyzer_scores_within_0_100
    E (resp : option Http.Response) (ssl_ok : bool)
    (load_time : option F64.float)
    (html : option string) (url : string) (st : St) :
  0 ≤ sec_score (analyze_security E resp ssl_ok st).1.1 ≤ 100
  ∧ 0 ≤ (analyze_performance E resp load_time st).1.1.2 ≤ 100
  ∧ 0 ≤ (analyze_seo E html url st).1.1.2 ≤ 100
  ∧ F64.leb (F64.of_Z 0) (analyze_accessibility E html url).1.2 = true
  ∧ F64.leb (analyze_accessibility E html url).1.2 (F64.of_Z 100) = true.
Proof.
  split; [apply analyze_security_score|].
  split; [apply analyze_performance_score|].
  split; [apply analyze_seo_score | apply analyze_accessibility_score].
Qed.

(** The clamp is needed: with an invalid certificate, no security header and
    a cookie without flags the running score is 100 - 40 - 60 - 20 = -20. *)
Example security_score_clamped_from_below :
  sec_score
    (analyze_security (Demo.env (F64.of_Z 1) Demo.zeros)
       (Some (Demo.response (Http.set_header "Set-Cookie" "sid=1"
                               Http.empty_headers)))
       false St0).1.1 = 0.
Proof. reflexivity. Qed.

(** The SEO score runs below 0 on a page with nothing but text: only the
    Open Graph deduction applies. *)
Example seo_score_clamped_from_below :
  (analyze_seo
     {| html_parser := λ _, Soup.Tag "[document]" ∅ [Soup.NavigableString "hi"];
        float_repr := Demo.repr_hundredths;
        urlparse_netloc := λ _, None;
        tls_handshake := λ _, None;
        requests_get := λ _, None;
        requests_head := λ _, None;
        random_bits := Demo.zeros;
        utcnow_isoformat := "" |}
     (Some "hi") "example.com" St0).1.1.2 = 0.
Proof. reflexivity. Qed.

(** ** Security analyzer *)

Lemma no_missing_header (r : Http.Response) :
  all_security_headers r →
  List.filter (λ h, negb (Http.contains (Http.headers r) h)) SECURITY_HEADERS
  = [].
Proof.
  intros Hall.
  assert (Hgen : ∀ l, (∀ h, In h l → Http.contains (Http.headers r) h = true) →
            List.filter (λ h, negb (Http.contains (Http.headers r) h)) l = []).
  { induction l as [|h l IH]; intros Hl; [done|].
    cbn [List.filter]. rewrite (Hl h (or_introl eq_refl)). cbn [negb].
    apply IH. intros h' Hin. apply Hl. by right. }
  by apply Hgen.
Qed.

(** C3, as the code has it: an invalid certificate, all six headers and a
    successful fetch give score 60 and the single certificate issue when
    the response sets no cookie or sets one with both the Secure and the
    HttpOnly flag. *)
Theorem security_tls_invalid_all_headers E (r : Http.Response) (st : St) :
  all_security_headers r →
  cookie_flags_ok r →
  sec_score (analyze_security E (Some r) false st).1.1 = 60
  ∧ (analyze_security E (Some r) false st).1.2
    = ["Invalid SSL/TLS certificate."].
Proof.
  intros Hall Hcookie.
  unfold analyze_security, bind, ret, random_random.
  rewrite (no_missing_header r Hall).
  unfold cookie_flags_ok in Hcookie.
  destruct (Http.get (Http.headers r) "Set-Cookie") as [c|]; [|done].
  destruct Hcookie as [->|[Hs Hh]]; [done|].
  rewrite Hs, Hh. by destruct (Str.truthy c).
Qed.

Lemma security_tls_invalid_all_headers_witness :
  all_security_headers (Demo.response Demo.flagged_cookie_headers)
  ∧ cookie_flags_ok (Demo.response Demo.flagged_cookie_headers)
  ∧ sec_score
      (analyze_security (Demo.env (F64.of_Z 1) Demo.zeros)
         (Some (Demo.response Demo.flagged_cookie_headers)) false St0).1.1
    = 60
  ∧ (analyze_security (Demo.env (F64.of_Z 1) Demo.zeros)
       (Some (Demo.response Demo.flagged_cookie_headers)) false St0).1.2
    = ["Invalid SSL/TLS certificate."].
Proof.
  assert (Hall : all_security_headers
                   (Demo.response Demo.flagged_cookie_headers)).
  { intros h Hin. simpl in Hin.
    repeat (destruct Hin as [<-|Hin]; [vm_compute; reflexivity|]).
    destruct Hin. }
  assert (Hcookie : cookie_flags_ok
                      (Demo.response Demo.flagged_cookie_headers)).
  { right. split; vm_compute; reflexivity. }
  split; [exact Hall|]. split; [exact Hcookie|].
  exact (security_tls_invalid_all_headers (Demo.env (F64.of_Z 1) Demo.zeros)
           (Demo.response Demo.flagged_cookie_headers) St0 Hall Hcookie).
Defined.

(** C3 as stated fails: the six headers are present, the certificate is
    invalid and the fetch succeeded, yet a cookie without flags brings the
    score to 40 and adds two issues. *)
Lemma security_tls_invalid_cookie_counterexample :
  all_security_headers (Demo.response Demo.cookie_headers)
  ∧ sec_score
      (analyze_security (Demo.env (F64.of_Z 1) Demo.zeros)
         (Some (Demo.response Demo.cookie_headers)) false St0).1.1
    = 40
  ∧ (analyze_security (Demo.env (F64.of_Z 1) Demo.zeros)
       (Some (Demo.response Demo.cookie_headers)) false St0).1.2
    = [ "Invalid SSL/TLS certificate.";
        "Cookies missing Secure flag.";
        "Cookies missing HttpOnly flag." ].
Proof.
  split; [|split; vm_compute; reflexivity].
  intros h Hin. simpl in Hin.
  repeat (destruct Hin as [<-|Hin]; [vm_compute; reflexivity|]).
  destruct Hin.
Qed.

(** C4: without a response the security score is 0 whatever the TLS flag,
    and the issue list holds the fetch-failure entry exactly once (after
    the certificate issue, when the certificate is invalid). *)
Theorem security_without_fetch E (ssl_ok : bool) (st : St) :
  sec_score (analyze_security E None ssl_ok st).1.1 = 0
  ∧ count_occ string_dec (analyze_security E None ssl_ok st).1.2
      "Could not fetch page for security analysis." = 1%nat
  ∧ (analyze_security E None ssl_ok st).1.2
    = (if ssl_ok then [] else ["Invalid SSL/TLS certificate."])
        ++ ["Could not fetch page for security analysis."].
Proof. by destruct ssl_ok. Qed.

(** ** Performance analyzer *)

(** A load time of 7.0 s and a body of 500 KB.  With the smallest draws the
    generator can make the simulated LCP is 5.6 and the FCP 2.8, and the
    score is 20; with the largest it is 10.  A CLS draw of
    3602879701896397 / 2^53 gives the float 0.1 itself, which is not above
    the threshold 0.1; the next draw is. *)
Example performance_7s_500kb_runs :
  (analyze_performance (Demo.env (F64.of_Z 7) Demo.zeros)
     (Some Demo.response_500kb) (Some (F64.of_Z 7)) St0).1
  = (Some {| perf_status_code := 200;
             perf_load_time_s := Some (F64.of_Z 7);
             perf_page_size_kb := F64.of_Z 500;
             perf_lcp := dec 56 10;
             perf_fcp := dec 28 10;
             perf_cls := S754_zero false |},
     20,
     ["High Largest Contentful Paint (LCP) - Page rendering is slow.";
      "High First Contentful Paint (FCP) - Initial content took time to display.";
      "Very high load time 7.0s."])
  ∧ (analyze_performance (Demo.env (F64.of_Z 7) Demo.ones)
       (Some Demo.response_500kb) (Some (F64.of_Z 7)) St0).1.1.2 = 10
  ∧ (analyze_performance (Demo.env (F64.of_Z 7) (λ _, 3602879701896397%N))
       (Some Demo.response_500kb) (Some (F64.of_Z 7)) St0).1.1.2 = 20
  ∧ (analyze_performance (Demo.env (F64.of_Z 7) (λ _, 3602879701896398%N))
       (Some Demo.response_500kb) (Some (F64.of_Z 7)) St0).1.1.2 = 10.
Proof. repeat split; vm_compute; reflexivity. Qed.

(** ** Aggregator: critical and minor issues *)

Lemma is_critical_spec (i : string) :
  is_critical i = true
  ↔ Substring "Missing" i ∨ Substring "Invalid" i ∨ Substring "High" i.
Proof.
  unfold is_critical, Substring.
  rewrite !orb_true_iff, !contains_app. tauto.
Qed.

(** C6: in a report the critical count is the number of issues, over the
    four issue lists together, that contain Missing, Invalid or High as a
    substring; an issue is counted exactly when it contains one of them;
    the minor count is the number of issues minus the critical count. *)
Theorem audit_issue_counts E data_url st rep st' :
  audit E data_url st = (Json200 rep, st') →
  let issues :=
    rep_security_issues rep ++ rep_performance_issues rep
      ++ rep_seo_issues rep ++ rep_accessibility_issues rep in
  rep_critical rep = Z.of_nat (length (List.filter is_critical issues))
  ∧ (∀ i, In i (List.filter is_critical issues)
          ↔ In i issues
            ∧ (Substring "Missing" i ∨ Substring "Invalid" i
               ∨ Substring "High" i))
  ∧ rep_minor rep = Z.of_nat (length issues) - rep_critical rep
  ∧ 0 ≤ rep_minor rep.
Proof.
  intros H. audit_steps H.
  cbn [rep_critical rep_minor rep_security_issues rep_performance_issues
       rep_seo_issues rep_accessibility_issues].
  split; [reflexivity|]. split.
  - intros i. by rewrite filter_In, is_critical_spec.
  - split; [reflexivity|].
    match goal with
    | |- context [List.filter is_critical ?l] =>
        pose proof (filter_length_le is_critical l)
    end. lia.
Qed.

(** The match is case-sensitive and blind to the context. *)
Example critical_is_case_sensitive :
  is_critical "missing header" = false
  ∧ is_critical "Highlights look fine" = true.
Proof. split; reflexivity. Qed.

Lemma audit_issue_counts_witness :
  ∃ rep st',
    audit (Demo.env (F64.of_Z 1) Demo.ones) (Some "example.com") St0 = (Json200 rep, st')
    ∧ rep_critical rep = 3
    ∧ rep_minor rep = 1
    ∧ rep_critical rep
      = Z.of_nat
          (length
             (List.filter is_critical
                (rep_security_issues rep ++ rep_performance_issues rep
                   ++ rep_seo_issues rep ++ rep_accessibility_issues rep))).
Proof.
  eexists. eexists.
  split; [vm_compute; reflexivity|].
  split; [reflexivity|]. split; [reflexivity|].
  eapply (audit_issue_counts (Demo.env (F64.of_Z 1) Demo.ones) (Some "example.com") St0).
  vm_compute. reflexivity.
Defined.

(** ** The URL guard of the handler *)

Lemma prefix_truthy (p s : string) :
  Str.truthy p = true → String.prefix p s = true → Str.truthy s = true.
Proof. destruct p, s; done. Qed.

Lemma normalize_url_truthy (url : string) :
  Str.truthy (normalize_url url) = true.
Proof.
  unfold normalize_url, Str.startswith.
  destruct (String.prefix "http://" (Str.strip url)) eqn:H1; cbn [orb negb].
  - by apply (prefix_truthy "http://").
  - destruct (String.prefix "https://" (Str.strip url)) eqn:H2; cbn [negb].
    + by apply (prefix_truthy "https://").
    + reflexivity.
Qed.

Lemma analyze_security_state E resp ssl_ok st :
  (analyze_security E resp ssl_ok st).2
  = {| cursor := S (cursor st); trace := trace st ++ [EvRandom] |}.
Proof.
  unfold analyze_security, bind, ret, random_random. by split_pair.
Qed.

Lemma analyze_performance_state E resp load_time st :
  (analyze_performance E resp load_time st).2
  = match resp, load_time with
    | None, _ => st
    | Some _, Some _ =>
        {| cursor := S (S (S (cursor st)));
           trace := trace st ++ [EvRandom; EvRandom; EvRandom] |}
    | Some _, None =>
        {| cursor := S (cursor st); trace := trace st ++ [EvRandom] |}
    end.
Proof.
  unfold analyze_performance. destruct resp as [r|]; [|done].
  unfold bind, random_uniform, bind, random_random, ret.
  destruct load_time as [t|]; repeat split_pair; cbn [fst snd cursor trace];
    by rewrite <- ?app_assoc.
Qed.

Lemma analyze_seo_state E html url st :
  (analyze_seo E html url st).2
  = if no_html html then st
    else {| cursor := cursor st;
            trace := trace st
                       ++ [EvHead (normalize_url url +:+ "/robots.txt");
                           EvHead (normalize_url url +:+ "/sitemap.xml")] |}.
Proof.
  unfold analyze_seo. destruct (no_html html); [done|].
  split_pair. unfold bind.
  edestruct (head_probe_ret E (normalize_url url +:+ "/robots.txt"))
    as (s1 & i1 & ->).
  edestruct (head_probe_ret E (normalize_url url +:+ "/sitemap.xml"))
    as (s2 & i2 & ->).
  cbn [fst snd ret cursor trace]. by rewrite <- app_assoc.
Qed.

(** The handler always starts with the TLS probe and the fetch. *)
Lemma audit_trace_starts E data_url st :
  let url := normalize_url (default "" data_url) in
  ∃ evs, trace (audit E data_url st).2
         = trace st ++ EvTls (hostname_from_url E url) :: EvGet url :: evs.
Proof.
  intros url. unfold audit.
  rewrite (normalize_url_truthy (default "" data_url)). cbn [negb].
  fold url.
  unfold bind at 1. unfold check_ssl_valid at 1. unfold bind at 1, emit at 1.
  destruct (tls_handshake E (hostname_from_url E url)) as [e|];
    unfold ret at 1; unfold bind at 1; unfold fetch_page at 1;
    unfold bind at 1, emit at 1; cbn [cursor trace];
    (destruct (requests_get E url) as [[r seconds]|]; unfold ret at 1;
     [| exists []; cbn [snd trace]; by rewrite <- app_assoc]);
    unfold bind at 1;
    (destruct (analyze_security _ _ _ _) as [[sec_metrics sec_issues] st1]
       eqn:Hsec; apply (f_equal snd) in Hsec;
     rewrite analyze_security_state in Hsec; cbn [snd] in Hsec);
    unfold bind at 1;
    (destruct (analyze_performance _ _ _ _) as [[[pm ps] pi] st2] eqn:Hperf;
     apply (f_equal snd) in Hperf;
     rewrite analyze_performance_state in Hperf; cbn [snd] in Hperf);
    unfold bind at 1;
    (destruct (analyze_seo _ _ _ _) as [[[sm ss] si] st3] eqn:Hseo;
     apply (f_equal snd) in Hseo;
     rewrite analyze_seo_state in Hseo; cbn [snd] in Hseo);
    (destruct (analyze_accessibility _ _ _) as [[am asc] ai]);
    unfold bind, emit, ret; cbn [snd trace];
    subst; cbn [cursor trace]; destruct (no_html _);
    cbn [cursor trace]; rewrite <- ?app_assoc; cbn [app]; eauto.
Qed.

(** C7 is not what the code does: [normalize_url] puts the scheme in front
    of the stripped text, so the URL the guard tests is never empty.  No
    request gets the 400 reply, and for an empty or absent URL the handler
    goes on to probe and to fetch [https://]. *)
Theorem audit_empty_url_not_rejected E (st : St) :
  (∀ data_url, (audit E data_url st).1 ≠ JsonError 400 "URL required")
  ∧ normalize_url "" = "https://"
  ∧ (∃ evs, trace (audit E (Some "") st).2
            = trace st ++ EvTls (hostname_from_url E "https://")
                :: EvGet "https://" :: evs)
  ∧ (∃ evs, trace (audit E None st).2
            = trace st ++ EvTls (hostname_from_url E "https://")
                :: EvGet "https://" :: evs).
Proof.
  split.
  - intros data_url H.
    unfold audit in H.
    rewrite (normalize_url_truthy (default "" data_url)) in H.
    cbn [negb] in H. unfold bind at 1 in H.
    destruct (check_ssl_valid _ _ _) as [[ssl_ok ssl_err] st1].
    unfold bind at 1 in H.
    destruct (fetch_page _ _ _) as [[[r|] load_time] st2];
      [|discriminate H].
    unfold bind at 1 in H.
    destruct (analyze_security _ _ _ _) as [[? ?] ?].
    unfold bind at 1 in H.
    destruct (analyze_performance _ _ _ _) as [[[? ?] ?] ?].
    unfold bind at 1 in H.
    destruct (analyze_seo _ _ _ _) as [[[? ?] ?] ?].
    destruct (analyze_accessibility _ _ _) as [[? ?] ?].
    discriminate H.
  - split; [reflexivity|].
    split; [apply (audit_trace_starts E (Some "") st)
           | apply (audit_trace_starts E None st)].
Qed.

(** Without network the empty URL ends in the 500 reply of a failed fetch,
    after the probe and the request were made. *)
Example audit_empty_url_offline :
  audit Demo.offline (Some "") St0
  = (JsonError 500 "Failed to fetch page.",
     {| cursor := 0; trace := [EvTls "https://"; EvGet "https://"] |}).
Proof. reflexivity. Qed.

(** ** SEO analyzer *)

(** C10: the SEO score never exceeds 70: the title gives at most 30, the
    description at most 30, a single h1 gives 10, and neither the Open Graph
    check nor the two HEAD probes add anything. *)
Theorem analyze_seo_score_at_most_70
    E (html : option string) (url : string) (st : St) :
  (analyze_seo E html url st).1.1.2 ≤ 70.
Proof.
  unfold analyze_seo. destruct (no_html html); [simpl; lia|].
  split_pair. unfold bind.
  edestruct (head_probe_ret E (normalize_url url +:+ "/robots.txt"))
    as (s1 & i1 & ->).
  edestruct (head_probe_ret E (normalize_url url +:+ "/sitemap.xml"))
    as (s2 & i2 & ->).
  cbn [fst snd ret].
  apply (f_equal fst) in Hacc. cbn [fst] in Hacc.
  enough (z ≤ 70) by (unfold Num.clamp; lia). subst z.
  repeat case_match; cbn [fst]; lia.
Qed.

(** The bound is reached: a page with a good title, a good description, one
    h1 and an Open Graph tag scores 70, with no issue. *)
Example seo_perfect_page_scores_70 :
  (analyze_seo Demo.perfect_env (Some Demo.html) "example.com" St0).1.1.2 = 70
  ∧ (analyze_seo Demo.perfect_env (Some Demo.html) "example.com" St0).1.2 = [].
Proof. split; vm_compute; reflexivity. Qed.

(** ** Accessibility analyzer *)

(** C9 fails on the accessibility analyzer: on a page with four images, one
    of them without [alt], it returns 100 - (1/4) * 30 = 92.5. *)
Theorem accessibility_score_not_integral :
  (F64.to_Q (analyze_accessibility (Demo.env (F64.of_Z 1) Demo.zeros)
               (Some Demo.html) "example.com").1.2 == 92.5)%Q
  ∧ ¬ integral (analyze_accessibility (Demo.env (F64.of_Z 1) Demo.zeros)
                  (Some Demo.html) "example.com").1.2.
Proof.
  assert (Hrun : (analyze_accessibility (Demo.env (F64.of_Z 1) Demo.zeros)
                    (Some Demo.html) "example.com").1.2
                 = S754_finite false 6509108836433920 (-46))
    by (vm_compute; reflexivity).
  rewrite Hrun. split; [reflexivity|].
  intros [z Hz]. unfold Qeq in Hz. cbn in Hz. lia.
Qed.

(** The deductions are rounded as binary64 rounds them: with 8 of 9 images
    without [alt] and 5 of 6 links without text the score is
    65.00000000000001, one unit in the last place above 65. *)
Example accessibility_score_is_rounded :
  (analyze_accessibility Demo.gallery_env (Some Demo.html) "example.com").1.2
  = S754_finite false 4573968371548161 (-46)
  ∧ F64.of_Z 65 = S754_finite false 4573968371548160 (-46).
Proof. split; vm_compute; reflexivity. Qed.

(** ** What a second run can change *)

Section Reseed.

Variable E : Env.
Variable draws : nat → N.
Variable clock : string.

Let E' : Env := reseed E draws clock.

Lemma check_ssl_valid_reseed : check_ssl_valid E' = check_ssl_valid E.
Proof. reflexivity. Qed.

Lemma fetch_page_reseed : fetch_page E' = fetch_page E.
Proof. reflexivity. Qed.

Lemma hostname_from_url_reseed : hostname_from_url E' = hostname_from_url E.
Proof. reflexivity. Qed.

Lemma analyze_seo_reseed : analyze_seo E' = analyze_seo E.
Proof. reflexivity. Qed.

Lemma analyze_accessibility_reseed :
  analyze_accessibility E' = analyze_accessibility E.
Proof. reflexivity. Qed.

(** The security analyzer: only the phishing advisory reads a draw. *)
Lemma analyze_security_reseed resp ssl_ok st :
  let a := analyze_security E resp ssl_ok st in
  let b := analyze_security E' resp ssl_ok st in
  a.2 = b.2
  ∧ a.1.2 = b.1.2
  ∧ sec_score a.1.1 = sec_score b.1.1
  ∧ sec_ssl_valid a.1.1 = sec_ssl_valid b.1.1
  ∧ sec_security_headers a.1.1 = sec_security_headers b.1.1.
Proof.
  unfold analyze_security, bind, ret, random_random.
  by split_pair.
Qed.

(** The performance analyzer: the status code, the load time and the
    page size read no draw, and the draws are made in the same number. *)
Lemma analyze_performance_reseed resp load_time st :
  let static :=
    λ m, (perf_status_code m, perf_load_time_s m, perf_page_size_kb m) in
  let a := analyze_performance E resp load_time st in
  let b := analyze_performance E' resp load_time st in
  a.2 = b.2 ∧ static <$> a.1.1.1 = static <$> b.1.1.1.
Proof.
  cbv zeta. rewrite !analyze_performance_state. split; [done|].
  unfold analyze_performance. destruct resp as [r|]; [|done].
  unfold bind, random_uniform, bind, random_random, ret.
  destruct load_time as [t|]; by repeat split_pair.
Qed.

(** Equal draws, equal results. *)
Lemma analyze_security_same_draw resp ssl_ok st :
  draw E' (cursor st) = draw E (cursor st) →
  analyze_security E' resp ssl_ok st = analyze_security E resp ssl_ok st.
Proof.
  intros H. unfold analyze_security, bind, ret, random_random.
  split_pair. by rewrite H.
Qed.

Lemma analyze_performance_same_draws resp load_time st :
  draw E' (cursor st) = draw E (cursor st) →
  draw E' (S (cursor st)) = draw E (S (cursor st)) →
  draw E' (S (S (cursor st))) = draw E (S (S (cursor st))) →
  analyze_performance E' resp load_time st
  = analyze_performance E resp load_time st.
Proof.
  intros H0 H1 H2. unfold analyze_performance.
  destruct resp as [r|]; [|done].
  unfold bind, random_uniform, bind, random_random, ret.
  destruct load_time as [t|]; cbn [cursor trace fst snd];
    rewrite ?H0, ?H1, ?H2; reflexivity.
Qed.

Lemma draw_reseed n :
  (draws n `mod` two53 = random_bits E n `mod` two53)%N →
  draw E' n = draw E n.
Proof. intros H. unfold draw. cbn [E' reseed random_bits]. by rewrite H. Qed.

End Reseed.

Lemma check_ssl_valid_state E h st :
  (check_ssl_valid E h st).2
  = {| cursor := cursor st; trace := trace st ++ [EvTls h] |}.
Proof.
  unfold check_ssl_valid, bind, emit, ret. by destruct (tls_handshake E h).
Qed.

Lemma fetch_page_state E u st :
  (fetch_page E u st).2
  = {| cursor := cursor st; trace := trace st ++ [EvGet u] |}.
Proof.
  unfold fetch_page, bind, emit, ret.
  by destruct (requests_get E u) as [[r s]|].
Qed.

Lemma audit_rerun_stable E draws clock data_url st :
  same_stable (audit E data_url st).1
    (audit (reseed E draws clock) data_url st).1.
Proof.
  unfold audit.
  destruct (negb (Str.truthy (normalize_url (default "" data_url))));
    [done|].
  rewrite hostname_from_url_reseed, check_ssl_valid_reseed, fetch_page_reseed,
    analyze_seo_reseed, analyze_accessibility_reseed.
  unfold bind.
  destruct (check_ssl_valid E _ st) as [[ssl_ok ssl_err] st1].
  destruct (fetch_page E _ st1) as [[[r|] load_time] st2]; [|done].
  pose proof (analyze_security_reseed E draws clock (Some r) ssl_ok st2)
    as Hs. cbv zeta in Hs.
  destruct (analyze_security E (Some r) ssl_ok st2) as [[ma ia] sa].
  destruct (analyze_security (reseed E draws clock) (Some r) ssl_ok st2)
    as [[mb ib] sb].
  cbn [fst snd] in Hs. destruct Hs as (-> & -> & Hscore & Hvalid & Hhdrs).
  pose proof (analyze_performance_reseed E draws clock (Some r) load_time sb)
    as Hp. cbv zeta in Hp.
  destruct (analyze_performance E (Some r) load_time sb)
    as [[[pma psa] pia] spa].
  destruct (analyze_performance (reseed E draws clock) (Some r) load_time sb)
    as [[[pmb psb] pib] spb].
  cbn [fst snd] in Hp. destruct Hp as (-> & Hstatic).
  destruct (analyze_seo E _ _ spb) as [[[sm ss] si] st5].
  destruct (analyze_accessibility E _ _) as [[am asc] ai].
  unfold emit, ret. cbn [fst same_stable]. unfold stable_view.
  cbn [rep_url rep_status rep_security rep_ssl_error rep_security_issues
       rep_performance rep_seo rep_seo_score rep_seo_issues
       rep_accessibility_score rep_accessibility_issues].
  by rewrite Hscore, Hvalid, Hhdrs, Hstatic.
Qed.

Lemma audit_rerun_same_draws E draws clock data_url st :
  (∀ i, (cursor st ≤ i < cursor st + 4)%nat →
        (draws i `mod` two53 = random_bits E i `mod` two53)%N) →
  same_but_timestamp (audit E data_url st).1
    (audit (reseed E draws clock) data_url st).1.
Proof.
  intros Hdraws. unfold audit.
  destruct (negb (Str.truthy (normalize_url (default "" data_url))));
    [done|].
  rewrite hostname_from_url_reseed, check_ssl_valid_reseed, fetch_page_reseed,
    analyze_seo_reseed, analyze_accessibility_reseed.
  unfold bind.
  destruct (check_ssl_valid E _ st) as [[ssl_ok ssl_err] st1] eqn:Hssl.
  apply (f_equal snd) in Hssl. rewrite check_ssl_valid_state in Hssl.
  destruct (fetch_page E _ st1) as [[[r|] load_time] st2] eqn:Hfetch; [|done].
  apply (f_equal snd) in Hfetch. rewrite fetch_page_state in Hfetch.
  cbn [snd] in Hssl, Hfetch.
  assert (Hcur : cursor st2 = cursor st) by (by subst).
  rewrite (analyze_security_same_draw E draws clock (Some r) ssl_ok st2)
    by (apply draw_reseed, Hdraws; lia).
  destruct (analyze_security E (Some r) ssl_ok st2) as [[ma ia] sa] eqn:Hsec.
  apply (f_equal snd) in Hsec. rewrite analyze_security_state in Hsec.
  cbn [snd] in Hsec.
  assert (Hcur' : cursor sa = S (cursor st)) by (subst sa; cbn; lia).
  rewrite (analyze_performance_same_draws E draws clock (Some r) load_time sa)
    by (apply draw_reseed, Hdraws; lia).
  destruct (analyze_performance E (Some r) load_time sa)
    as [[[pma psa] pia] spa].
  destruct (analyze_seo E _ _ spa) as [[[sm ss] si] st5].
  by destruct (analyze_accessibility E _ _) as [[am asc] ai].
Qed.

(** C8, as the code has it.  Two runs on the same captured response, load
    time, TLS result and HEAD results agree on the URL, the status, the
    security score, headers, TLS fields and issues, the status code, load
    time and page size, and the whole SEO and accessibility parts.  The
    phishing advisory, the three simulated metrics and with them the
    performance score and issues, the overall score and grade and the issue
    counts follow the four random draws of a run: two runs that make the
    same four draws agree on everything but the timestamp. *)
Theorem audit_rerun E draws clock data_url st :
  same_stable (audit E data_url st).1
    (audit (reseed E draws clock) data_url st).1
  ∧ ((∀ i, (cursor st ≤ i < cursor st + 4)%nat →
           (draws i `mod` two53 = random_bits E i `mod` two53)%N) →
     same_but_timestamp (audit E data_url st).1
       (audit (reseed E draws clock) data_url st).1).
Proof.
  split; [apply audit_rerun_stable | apply audit_rerun_same_draws].
Qed.

Lemma audit_rerun_witness :
  (∀ i, (cursor St0 ≤ i < cursor St0 + 4)%nat →
        ((λ n, if (n <? 4)%nat then 0 else 5) i `mod` two53
         = random_bits (Demo.env (F64.of_Z 1) Demo.zeros) i `mod` two53)%N)
  ∧ same_stable (audit (Demo.env (F64.of_Z 1) Demo.zeros) (Some "example.com") St0).1
      (audit (reseed (Demo.env (F64.of_Z 1) Demo.zeros)
                (λ n, if (n <? 4)%nat then 0%N else 5%N) "2025-06-01T12:00:00")
         (Some "example.com") St0).1
  ∧ same_but_timestamp
      (audit (Demo.env (F64.of_Z 1) Demo.zeros) (Some "example.com") St0).1
      (audit (reseed (Demo.env (F64.of_Z 1) Demo.zeros)
                (λ n, if (n <? 4)%nat then 0%N else 5%N) "2025-06-01T12:00:00")
         (Some "example.com") St0).1.
Proof.
  assert (Hdraws : ∀ i, (cursor St0 ≤ i < cursor St0 + 4)%nat →
            ((λ n, if (n <? 4)%nat then 0 else 5) i `mod` two53
             = random_bits (Demo.env (F64.of_Z 1) Demo.zeros) i `mod` two53)%N).
  { intros i Hi. cbn [cursor St0] in Hi. cbv beta.
    destruct (Nat.ltb_spec i 4) as [_|Hge]; [reflexivity | lia]. }
  split; [exact Hdraws|].
  destruct (audit_rerun (Demo.env (F64.of_Z 1) Demo.zeros)
              (λ n, if (n <? 4)%nat then 0%N else 5%N) "2025-06-01T12:00:00"
              (Some "example.com") St0) as [Hstable Hsame].
  split; [exact Hstable | exact (Hsame Hdraws)].
Defined.

(** C8 as stated fails: the same captured response, load time, TLS result
    and HEAD results, and the same clock, but other draws, give another
    report: the phishing advisory, the simulated CLS, the performance score
    and issues, the overall score and the critical count differ. *)
Lemma audit_rerun_counterexample :
  ∃ a b st_a st_b,
    audit (Demo.env (F64.of_Z 1) Demo.zeros) (Some "example.com") St0 = (Json200 a, st_a)
    ∧ audit (reseed (Demo.env (F64.of_Z 1) Demo.zeros) Demo.ones "2024-01-01T00:00:00")
        (Some "example.com") St0 = (Json200 b, st_b)
    ∧ rep_timestamp a = rep_timestamp b
    ∧ sec_phishing_risk (rep_security a) = "HIGH RISK"
    ∧ sec_phishing_risk (rep_security b) = "LOW RISK"
    ∧ rep_performance_score a = 100 ∧ rep_performance_score b = 90
    ∧ rep_performance_issues a = []
    ∧ rep_performance_issues b
      = ["High Cumulative Layout Shift (CLS) - Page layout is unstable."]
    ∧ rep_overall_score a = 79 ∧ rep_overall_score b = 76
    ∧ rep_critical a = 2 ∧ rep_critical b = 3
    ∧ erase_timestamp a ≠ erase_timestamp b.
Proof.
  eexists. eexists. eexists. eexists.
  split; [vm_compute; reflexivity|].
  split; [vm_compute; reflexivity|].
  repeat (split; [reflexivity|]).
  intros Heq. apply (f_equal rep_overall_score) in Heq.
  vm_compute in Heq. discriminate Heq.
Qed.

(** * Further properties of the code *)

(** ** Stripping and the URL normalizer *)

Lemma append_assoc (a b c : string) : (a +:+ b) +:+ c = a +:+ (b +:+ c).
Proof.
  induction a as [|x a IH]; [done|].
  by rewrite !append_cons, IH.
Qed.

Lemma append_empty_r (a : string) : a +:+ "" = a.
Proof. induction a as [|x a IH]; [done|]. by rewrite append_cons, IH. Qed.

Lemma rev_app_append (s t : string) : String.rev_app s t = String.rev s +:+ t.
Proof.
  revert t. induction s as [|x s IH]; intros t; [done|].
  unfold String.rev. cbn [String.rev_app].
  rewrite (IH (String x "")), (IH (String x t)), append_assoc.
  by rewrite append_cons, append_nil.
Qed.

Lemma rev_cons x (s : string) :
  String.rev (String x s) = String.rev s +:+ String x "".
Proof. unfold String.rev at 1. cbn [String.rev_app]. apply rev_app_append. Qed.

Lemma rev_append (s t : string) :
  String.rev (s +:+ t) = String.rev t +:+ String.rev s.
Proof.
  induction s as [|x s IH].
  - by rewrite append_nil, append_empty_r.
  - by rewrite append_cons, !rev_cons, IH, append_assoc.
Qed.

Lemma rev_involutive (s : string) : String.rev (String.rev s) = s.
Proof.
  induction s as [|x s IH]; [done|].
  by rewrite rev_cons, rev_append, IH.
Qed.

Lemma lstrip_head_ok (s : string) : head_ok (Str.lstrip s) = true.
Proof.
  induction s as [|c s IH]; [done|].
  cbn [Str.lstrip]. destruct (Str.isspace c) eqn:Hc; [done|].
  cbn [head_ok]. by rewrite Hc.
Qed.

Lemma lstrip_fixed (s : string) : head_ok s = true → Str.lstrip s = s.
Proof.
  destruct s as [|c s]; [done|]. cbn [head_ok Str.lstrip].
  by destruct (Str.isspace c).
Qed.

(** What [lstrip] leaves is a suffix. *)
Lemma lstrip_suffix (s : string) : ∃ w, s = w +:+ Str.lstrip s.
Proof.
  induction s as [|c s [w IH]]; [by exists ""|].
  cbn [Str.lstrip]. destruct (Str.isspace c).
  - exists (String c w). by rewrite append_cons, <- IH.
  - by exists "".
Qed.

Lemma head_ok_prefix (a b : string) :
  head_ok (a +:+ b) = true → head_ok a = true.
Proof. destruct a as [|c a]; [done|]. by rewrite append_cons. Qed.

Lemma head_ok_append (a b : string) :
  head_ok a = true → a ≠ "" → head_ok (a +:+ b) = true.
Proof. destruct a as [|c a]; [done|]. by rewrite append_cons. Qed.

Lemma rstrip_head_ok (t : string) :
  head_ok t = true → head_ok (Str.rstrip t) = true.
Proof.
  intros Ht. unfold Str.rstrip.
  destruct (lstrip_suffix (String.rev t)) as [w Hw].
  apply (f_equal String.rev) in Hw.
  rewrite rev_involutive, rev_append in Hw.
  rewrite Hw in Ht. by apply head_ok_prefix in Ht.
Qed.

Lemma strip_clean (s : string) :
  head_ok (Str.strip s) = true ∧ head_ok (String.rev (Str.strip s)) = true.
Proof.
  unfold Str.strip. split.
  - apply rstrip_head_ok, lstrip_head_ok.
  - unfold Str.rstrip. rewrite rev_involutive. apply lstrip_head_ok.
Qed.

Lemma strip_fixed (s : string) :
  head_ok s = true → head_ok (String.rev s) = true → Str.strip s = s.
Proof.
  intros H1 H2. unfold Str.strip, Str.rstrip.
  by rewrite (lstrip_fixed s H1), (lstrip_fixed _ H2), rev_involutive.
Qed.

Lemma rev_empty (s : string) : String.rev s = "" → s = "".
Proof.
  intros H. apply (f_equal String.rev) in H. by rewrite rev_involutive in H.
Qed.

Lemma normalize_url_scheme (url : string) :
  Str.startswith (normalize_url url) "http://"
  || Str.startswith (normalize_url url) "https://" = true.
Proof.
  unfold normalize_url.
  destruct (Str.startswith (Str.strip url) "http://"
            || Str.startswith (Str.strip url) "https://") eqn:H;
    cbn [negb]; [exact H|].
  apply orb_true_iff. right. unfold Str.startswith.
  apply prefix_app. by eexists.
Qed.

Lemma normalize_url_stripped (url : string) :
  Str.strip (normalize_url url) = normalize_url url.
Proof.
  unfold normalize_url. destruct (strip_clean url) as [H1 H2].
  destruct (negb _); [|by apply strip_fixed].
  apply strip_fixed; [done|].
  rewrite rev_append.
  destruct (String.rev (Str.strip url)) as [|c r] eqn:Hr; [done|].
  by rewrite append_cons.
Qed.

Lemma normalize_url_fixed (url : string) :
  normalize_url (normalize_url url) = normalize_url url.
Proof.
  unfold normalize_url at 1.
  by rewrite normalize_url_stripped, normalize_url_scheme.
Qed.

(** X1: the normalizer gives a URL that begins with http:// or https://,
    carries no white space at either end, and is left as it is by a second
    normalization. *)
Theorem normalize_url_idempotent (url : string) :
  (Str.startswith (normalize_url url) "http://"
   || Str.startswith (normalize_url url) "https://" = true)
  ∧ Str.strip (normalize_url url) = normalize_url url
  ∧ normalize_url (normalize_url url) = normalize_url url.
Proof.
  split; [apply normalize_url_scheme|].
  split; [apply normalize_url_stripped | apply normalize_url_fixed].
Qed.

(** Inner white space is kept and a scheme in capitals is not recognised:
    the normalizer is no parser. *)
Example normalize_url_examples :
  normalize_url "  example.com/a b  " = "https://example.com/a b"
  ∧ normalize_url "HTTP://example.com" = "https://HTTP://example.com"
  ∧ normalize_url "http://example.com" = "http://example.com".
Proof. repeat split; reflexivity. Qed.

(** ** Grades *)

(** X2: a higher overall score never gives a lower grade, and the grade of
    any score is one of the six letters. *)
Theorem letter_grade_monotone (s1 s2 : Z) :
  s1 ≤ s2 →
  (grade_rank (letter_grade s1) ≤ grade_rank (letter_grade s2))%nat
  ∧ In (letter_grade s2) ["A+"; "A"; "B"; "C"; "D"; "F"].
Proof.
  intros H. unfold letter_grade.
  repeat case_match; (split; [vm_compute; lia | cbn [In]; tauto]) || lia.
Qed.

Lemma letter_grade_monotone_witness :
  59 ≤ 60
  ∧ (grade_rank (letter_grade 59) ≤ grade_rank (letter_grade 60))%nat
  ∧ In (letter_grade 60) ["A+"; "A"; "B"; "C"; "D"; "F"].
Proof.
  assert (H : 59 ≤ 60) by lia.
  split; [exact H | exact (letter_grade_monotone 59 60 H)].
Defined.

(** ** Security analyzer: score, issues and the header map *)

(** X3: for a fetched response every deduction of the security analyzer
    comes with one issue: the score is 100 less 10 per issue, less 30 more
    when the certificate is invalid, and not below 0.  The score is 100
    exactly when there is no issue. *)
Theorem analyze_security_score_by_issues
    E (r : Http.Response) (ssl_ok : bool) (st : St) :
  sec_score (analyze_security E (Some r) ssl_ok st).1.1
  = Z.max 0 (100 - 10 * Z.of_nat (length (analyze_security E (Some r) ssl_ok st).1.2)
             - (if ssl_ok then 0 else 30))
  ∧ (sec_score (analyze_security E (Some r) ssl_ok st).1.1 = 100
     ↔ (analyze_security E (Some r) ssl_ok st).1.2 = []).
Proof.
  unfold analyze_security, bind, ret, random_random.
  split_pair. cbn [fst snd sec_score].
  assert (Hz : z = 100 - 10 * Z.of_nat (length l)
                   - (if ssl_ok then 0 else 30)).
  { revert Hacc.
    generalize (List.filter (λ h, negb (Http.contains (Http.headers r) h))
                  SECURITY_HEADERS); intros missing Hacc.
    destruct ssl_ok;
      (destruct (Http.get _ _) as [c|]; [destruct (Str.truthy c)|]);
      destruct missing; cbn [negb deduct fst snd] in Hacc;
      repeat (match type of Hacc with
              | context [deduct ?c _ _ _] => destruct c
              end; cbn [deduct fst snd] in Hacc);
      injection Hacc as <- <-;
      cbn [length]; rewrite ?length_app, ?length_map; cbn [length]; lia. }
  split; [by rewrite Hz|].
  destruct l as [|i l]; cbn [length] in Hz.
  - destruct ssl_ok; [split; [done | lia]|].
    exfalso. revert Hacc. cbn [negb deduct fst snd].
    generalize (List.filter (λ h, negb (Http.contains (Http.headers r) h))
                  SECURITY_HEADERS); intros missing Hacc.
    apply (f_equal snd) in Hacc. cbn [snd] in Hacc.
    apply (f_equal length) in Hacc. revert Hacc.
    (destruct (Http.get _ _) as [c|]; [destruct (Str.truthy c)|]);
      destruct missing; cbn [fst snd];
      rewrite ?deduct_snd; repeat case_match; cbn [fst snd];
      rewrite ?length_app; cbn [length]; lia.
  - split; [|done]. destruct ssl_ok; lia.
Qed.

(** X4: the header map of the security metrics.  For a response with a
    status below 400 (or from 600 on) it has exactly the six required names
    as keys, each with the truth of its presence.  For a 4xx or 5xx response
    it is empty, although the headers of that response are still inspected
    and scored. *)
Theorem security_headers_map
    E (r : Http.Response) (ssl_ok : bool) (st : St) (h : string) :
  let m := sec_security_headers (analyze_security E (Some r) ssl_ok st).1.1 in
  (Http.ok r = true →
     (In h SECURITY_HEADERS → m !! h = Some (Http.contains (Http.headers r) h))
     ∧ (¬ In h SECURITY_HEADERS → m !! h = None))
  ∧ (Http.ok r = false → m = ∅).
Proof.
  unfold analyze_security, bind, ret, random_random.
  split_pair. cbn [fst snd sec_security_headers].
  split; intros Hok; rewrite Hok; [|done].
  unfold SECURITY_HEADERS. cbn [foldl In]. split.
  - intros Hin.
    repeat (destruct Hin as [<-|Hin]; [by simplify_map_eq|]).
    destruct Hin.
  - intros Hnot.
    rewrite !lookup_insert_ne by (intros <-; apply Hnot; tauto).
    apply lookup_empty.
Qed.

Lemma security_headers_map_witness :
  Http.ok (Demo.response Demo.six_headers) = true
  ∧ In "X-Frame-Options" SECURITY_HEADERS
  ∧ sec_security_headers
      (analyze_security (Demo.env (F64.of_Z 1) Demo.zeros)
         (Some (Demo.response Demo.six_headers)) true St0).1.1
    !! "X-Frame-Options"
    = Some (Http.contains (Http.headers (Demo.response Demo.six_headers))
              "X-Frame-Options").
Proof.
  assert (Hok : Http.ok (Demo.response Demo.six_headers) = true)
    by reflexivity.
  assert (Hin : In "X-Frame-Options" SECURITY_HEADERS)
    by (cbn; tauto).
  split; [exact Hok|]. split; [exact Hin|].
  exact (proj1 (proj1 (security_headers_map (Demo.env (F64.of_Z 1) Demo.zeros)
                         (Demo.response Demo.six_headers) true St0
                         "X-Frame-Options") Hok) Hin).
Defined.

(** A 404 page without any of the headers: six deductions, an empty map. *)
Example security_headers_map_404 :
  let r := {| Http.status_code := 404;
              Http.headers := Http.empty_headers;
              Http.content := "Not Found";
              Http.text := "Not Found" |} in
  sec_score (analyze_security (Demo.env (F64.of_Z 1) Demo.zeros) (Some r) true St0).1.1
  = 40
  ∧ sec_security_headers
      (analyze_security (Demo.env (F64.of_Z 1) Demo.zeros) (Some r) true St0).1.1 = ∅.
Proof. split; reflexivity. Qed.

(** ** The handler: what it does to the outside world *)



(** An error page is audited like any other. *)
Example audit_reports_error_pages :
  ∃ rep st',
    audit
      {| html_parser := λ _, Soup.Tag "[document]" ∅
                               [Soup.NavigableString "Not Found"];
         float_repr := Demo.repr_hundredths;
         urlparse_netloc := λ _, Some "example.com";
         tls_handshake := λ _, None;
         requests_get :=
           λ _, Some ({| Http.status_code := 404;
                         Http.headers := Http.empty_headers;
                         Http.content := "Not Found";
                         Http.text := "Not Found" |}, F64.of_Z 1);
         requests_head := λ _, Some 404;
         random_bits := Demo.zeros;
         utcnow_isoformat := "2024-01-01T00:00:00" |}
      (Some "example.com/missing") St0 = (Json200 rep, st')
    ∧ rep_status rep = "success".
Proof.
  eexists. eexists. split; [vm_compute; reflexivity | reflexivity].
Qed.

(** ** The handler never takes the degraded paths of its analyzers *)

Ltac refute_in H :=
  cbn [In] in H;
  repeat (destruct H as [H|H];
          [first [discriminate H
                 | rewrite append_cons in H; discriminate H]|]);
  try destruct H.

Lemma security_issues_fetched E (r : Http.Response) (ssl_ok : bool) st :
  ¬ In "Could not fetch page for security analysis."
       (analyze_security E (Some r) ssl_ok st).1.2.
Proof.
  unfold analyze_security, bind, ret, random_random.
  split_pair. cbn [fst snd]. apply (f_equal snd) in Hacc. cbn [snd] in Hacc.
  subst l.
  generalize (List.filter (λ h, negb (Http.contains (Http.headers r) h))
                SECURITY_HEADERS); intros missing.
  assert (Hmiss : ¬ In "Could not fetch page for security analysis."
                      (map (λ h, "Missing " +:+ h +:+ " header.") missing)).
  { intros Hin. apply in_map_iff in Hin. destruct Hin as (h & Hh & _).
    rewrite append_cons in Hh. discriminate Hh. }
  revert Hmiss.
  destruct ssl_ok;
    (destruct (Http.get _ _) as [c|]; [destruct (Str.truthy c)|]);
    destruct missing as [|h0 missing]; cbn [negb deduct fst snd];
    rewrite ?deduct_snd; repeat case_match; cbn [fst snd];
    rewrite ?in_app_iff; cbn [In]; intros Hmiss Hin;
    repeat (destruct Hin as [Hin|Hin]);
    first [done | discriminate Hin | by apply Hmiss
          | apply Hmiss; cbn [map In]; tauto].
Qed.

Lemma performance_issues_timed E (r : Http.Response) (t : F64.float) st :
  ¬ In "Could not measure load time."
       (analyze_performance E (Some r) (Some t) st).1.2
  ∧ ¬ In "Site not reachable for performance test."
         (analyze_performance E (Some r) (Some t) st).1.2.
Proof.
  unfold analyze_performance, bind, random_uniform, bind, random_random, ret.
  cbn [fst snd cursor trace].
  split; intros Hin; revert Hin;
    repeat (match goal with
            | |- context [deduct ?c _ _ _] =>
                match c with
                | true => fail 1
                | _ => destruct c
                end
            | |- context [if ?c then _ else _] => destruct c
            end; cbn [deduct fst snd app]);
    intros Hin; refute_in Hin.
Qed.

(** X6: a report always says success for the normalized URL, always carries
    a measured load time, and never holds one of the three issues of an
    unreachable page: the handler leaves with the 500 reply before an
    analyzer could take such a path. *)
Theorem audit_report_is_not_degraded E data_url st rep st' :
  audit E data_url st = (Json200 rep, st') →
  rep_status rep = "success"
  ∧ rep_url rep = normalize_url (default "" data_url)
  ∧ (∃ m t, rep_performance rep = Some m ∧ perf_load_time_s m = Some t)
  ∧ ¬ In "Could not fetch page for security analysis."
         (rep_security_issues rep)
  ∧ ¬ In "Site not reachable for performance test."
         (rep_performance_issues rep)
  ∧ ¬ In "Could not measure load time." (rep_performance_issues rep).
Proof.
  intros H. audit_steps H.
  cbn [rep_status rep_url rep_performance rep_security_issues
       rep_performance_issues].
  assert (Hload : ∃ t, load_time = Some t).
  { unfold fetch_page, bind, emit, ret in Hfetch.
    destruct (requests_get E _) as [[r' seconds]|]; [|discriminate Hfetch].
    injection Hfetch as _ <- _. by eexists. }
  destruct Hload as [t ->].
  match type of Hsec with
  | analyze_security _ _ _ ?s = _ =>
      pose proof (security_issues_fetched E r ssl_ok s) as Hs
  end.
  rewrite Hsec in Hs. cbn [fst snd] in Hs.
  match type of Hperf with
  | analyze_performance _ _ _ ?s = _ =>
      pose proof (performance_issues_timed E r t s) as Hp
  end.
  assert (Hm : ∃ m, perf_metrics = Some m ∧ perf_load_time_s m = Some t).
  { revert Hperf. unfold analyze_performance, bind, random_uniform, bind,
      random_random, ret. cbn [fst snd].
    repeat split_pair. intros Hperf. injection Hperf as <- _ _ _.
    by eexists. }
  rewrite Hperf in Hp. cbn [fst snd] in Hp. destruct Hp as [Hp1 Hp2].
  destruct Hm as (m & -> & Hm).
  split; [done|]. split; [done|]. split; [by exists m; eexists|].
  done.
Qed.

Lemma audit_report_is_not_degraded_witness :
  ∃ rep st',
    audit (Demo.env (F64.of_Z 1) Demo.ones) (Some "example.com") St0 = (Json200 rep, st')
    ∧ rep_url rep = "https://example.com"
    ∧ ¬ In "Could not measure load time." (rep_performance_issues rep).
Proof.
  eexists. eexists.
  split; [vm_compute; reflexivity|].
  split; [reflexivity|].
  eapply (audit_report_is_not_degraded (Demo.env (F64.of_Z 1) Demo.ones)
            (Some "example.com") St0).
  vm_compute. reflexivity.
Defined.
